(** * ommprotocol.io: format-dispatching loaders and validated containers

    A shallow embedding of [ommprotocol/io.py].  Python objects are values of
    one universal type, exceptions are explicit results, the external
    libraries (OpenMM, ParmEd, openmoltools), the [float] builtin and the file
    system are collected in a record [World]. *)

From stdpp Require Import base strings list gmap pretty.
From Stdlib Require Import ZArith Ascii.

Open Scope string_scope.
Set Warnings "-register-all".

(** ** Exceptions and results *)

Inductive exn : Type :=
  | AttributeError (msg : string)
  | IndexError (msg : string)
  | IOError (msg : string)
  | KeyError (key : string)
  | NameError (msg : string)
  | NotImplementedError (msg : string)
  | TypeError (msg : string)
  | ValueError (msg : string)
  | LibraryError (msg : string).

Inductive res (A : Type) : Type :=
  | Ok (a : A)
  | Raise (e : exn).
Arguments Ok {A} a.
Arguments Raise {A} e.

#[global] Instance res_ret : MRet res := λ A a, Ok a.
#[global] Instance res_bind : MBind res := λ A B f m,
  match m with
  | Ok a => f a
  | Raise e => Raise e
  end.
#[global] Instance res_fmap : FMap res := λ A B f m,
  match m with
  | Ok a => Ok (f a)
  | Raise e => Raise e
  end.

Definition raises {A} (m : res A) : Prop :=
  match m with
  | Ok _ => False
  | Raise _ => True
  end.

(** ** Classes and values *)

(** The classes the module imports, the builtin classes of the values it
    handles, and classes defined elsewhere ([UserClass name base]). *)
Inductive class : Type :=
  | Topology
  | Quantity
  | PDBFile
  | ForceField
  | AmberPrmtopFile
  | AmberInpcrdFile
  | CharmmPsfFile
  | CharmmParameterSet
  | NoneType
  | py_bool
  | py_int
  | py_float
  | py_str
  | py_list
  | py_tuple
  | py_type
  | UserClass (name : string) (base : class).

#[global] Instance class_eq_dec : EqDecision class.
Proof. solve_decision. Defined.

(** [simtk.unit] units used by the loaders. *)
Inductive unit_ : Type :=
  | angstroms
  | angstroms_per_picosecond.

(** An IEEE 754 double, as its 64-bit pattern; the module only moves floats
    around. *)
Record float64 : Type := Float64 { f64_bits : Z }.

Inductive value : Type :=
  | VNone
  | VBool (b : bool)
  | VInt (z : Z)
  | VFloat (x : float64)
  | VStr (s : string)
  | VList (xs : list value)
  | VTuple (xs : list value)
  | VClass (c : class)
  | VQuantity (v : value) (un : unit_)
  | VObject (c : class) (attrs : list (string * value)).

Definition type_of (v : value) : class :=
  match v with
  | VNone => NoneType
  | VBool _ => py_bool
  | VInt _ => py_int
  | VFloat _ => py_float
  | VStr _ => py_str
  | VList _ => py_list
  | VTuple _ => py_tuple
  | VClass _ => py_type
  | VQuantity _ _ => Quantity
  | VObject c _ => c
  end.

(** [issubclass c d]: [d] occurs on the chain of bases of [c]. *)
Fixpoint issubclass (c d : class) : bool :=
  bool_decide (c = d) ||
  match c with
  | py_bool => bool_decide (d = py_int)
  | UserClass _ base => issubclass base d
  | _ => false
  end.

Definition isinstance_msg : string :=
  "isinstance() arg 2 must be a type or tuple of types".

(** The builtin [isinstance(obj, classinfo)].  A class is tested directly; a
    tuple is scanned from the left and the scan stops at the first member
    that answers True or raises; anything else, the object [None] included,
    is not a class and raises TypeError. *)
Fixpoint isinstance (obj : value) (classinfo : value) : res bool :=
  match classinfo with
  | VClass c => Ok (issubclass (type_of obj) c)
  | VTuple items =>
      (fix scan (items : list value) : res bool :=
         match items with
         | [] => Ok false
         | item :: rest =>
             match isinstance obj item with
             | Ok false => scan rest
             | r => r
             end
         end) items
  | _ => Raise (TypeError isinstance_msg)
  end.

(** Truth value of an object, as [if x] and [not x] take it. *)
Definition truthy (v : value) : bool :=
  match v with
  | VNone => false
  | VBool b => b
  | VInt z => negb (Z.eqb z 0)
  | VFloat x => negb (Z.eqb (Z.land (f64_bits x) (Z.ones 63)) 0)
  | VStr s => negb (String.eqb s "")
  | VList xs | VTuple xs => negb (Nat.eqb (length xs) 0)
  | _ => true
  end.

Definition is_None (v : value) : bool :=
  match v with
  | VNone => true
  | _ => false
  end.

Fixpoint assoc (name : string) (attrs : list (string * value)) : option value :=
  match attrs with
  | [] => None
  | (k, v) :: rest => if String.eqb k name then Some v else assoc name rest
  end.

(** Attribute access on library objects: the attributes an object has are
    those listed in it. *)
Definition hasattr (obj : value) (name : string) : bool :=
  match obj with
  | VObject _ attrs => bool_decide (is_Some (assoc name attrs))
  | _ => false
  end.

Definition getattr (obj : value) (name : string) : res value :=
  match obj with
  | VObject _ attrs =>
      match assoc name attrs with
      | Some v => Ok v
      | None => Raise (AttributeError name)
      end
  | _ => Raise (AttributeError name)
  end.

Definition getattr_default (obj : value) (name : string) (d : value) : value :=
  match getattr obj name with
  | Ok v => v
  | Raise _ => d
  end.

Definition setattr (obj : value) (name : string) (v : value) : res value :=
  match obj with
  | VObject c attrs => Ok (VObject c ((name, v) :: attrs))
  | _ => Raise (AttributeError name)
  end.

(** [obj[i]] for a non-negative literal index. *)
Definition getitem (obj : value) (i : nat) : res value :=
  match obj with
  | VList xs | VTuple xs =>
      match xs !! i with
      | Some v => Ok v
      | None => Raise (IndexError "index out of range")
      end
  | _ => Raise (TypeError "object is not subscriptable")
  end.

(** Iteration for [*args] unpacking. *)
Definition iter_values (v : value) : res (list value) :=
  match v with
  | VList xs | VTuple xs => Ok xs
  | VStr s => Ok ((λ c, VStr (String c "")) <$> String.list_ascii_of_string s)
  | _ => Raise (TypeError "argument after * must be an iterable")
  end.

(** ** validate and InputContainer *)

(** [validate(object_, type_)], lines 498-504. *)
Definition validate (object_ : value) (type_ : value) : res value :=
  b ← isinstance object_ type_;
  if (b : bool) then Ok object_
  else Raise (TypeError "object must be instance of type").

Record InputContainer : Type := mkInputContainer {
  _topology : value;
  _positions : value;
  _velocities : value;
  _box : value
}.

(** The property setters.  Each returns the outcome of the assignment together
    with the container as it is afterwards. *)
Definition set_topology (obj : value) (self : InputContainer)
  : res unit * InputContainer :=
  match validate obj (VTuple [VClass Topology; VNone]) with
  | Ok v => (Ok (), mkInputContainer v (_positions self) (_velocities self) (_box self))
  | Raise e => (Raise e, self)
  end.

Definition set_positions (obj : value) (self : InputContainer)
  : res unit * InputContainer :=
  match validate obj (VTuple [VClass Quantity; VNone]) with
  | Ok v => (Ok (), mkInputContainer (_topology self) v (_velocities self) (_box self))
  | Raise e => (Raise e, self)
  end.

Definition set_velocities (obj : value) (self : InputContainer)
  : res unit * InputContainer :=
  match validate obj (VTuple [VClass Quantity; VNone]) with
  | Ok v => (Ok (), mkInputContainer (_topology self) (_positions self) v (_box self))
  | Raise e => (Raise e, self)
  end.

Definition set_box (obj : value) (self : InputContainer)
  : res unit * InputContainer :=
  match validate obj (VTuple [VClass Quantity; VNone]) with
  | Ok v => (Ok (), mkInputContainer (_topology self) (_positions self) (_velocities self) v)
  | Raise e => (Raise e, self)
  end.

Definition has_topology (self : InputContainer) : bool := negb (is_None (_topology self)).
Definition has_positions (self : InputContainer) : bool := negb (is_None (_positions self)).
Definition has_velocities (self : InputContainer) : bool := negb (is_None (_velocities self)).
Definition has_box (self : InputContainer) : bool := negb (is_None (_box self)).

(** Run a setter inside a constructor: an exception abandons the object. *)
Definition assign (m : InputContainer → res unit * InputContainer)
    (self : InputContainer) : res InputContainer :=
  match m self with
  | (Ok _, self') => Ok self'
  | (Raise e, _) => Raise e
  end.

Definition kwarg (kwargs : gmap string value) (name : string) : value :=
  default VNone (kwargs !! name).

(** [InputContainer.__init__], lines 102-110; extra keywords are ignored. *)
Definition InputContainer_init (kwargs : gmap string value) : res InputContainer :=
  let self := mkInputContainer VNone VNone VNone VNone in
  self ← assign (set_topology (kwarg kwargs "topology")) self;
  self ← assign (set_positions (kwarg kwargs "positions")) self;
  self ← assign (set_velocities (kwarg kwargs "velocities")) self;
  assign (set_box (kwarg kwargs "box")) self.

(** ** Strings and paths *)

(** [s.rfind(c)] for a one-character [c]: the last index of [c], or -1. *)
Fixpoint rfind_from (c : ascii) (s : string) (i last : Z) : Z :=
  match s with
  | EmptyString => last
  | String a s' => rfind_from c s' (i + 1)%Z (if Ascii.eqb a c then i else last)
  end.

Definition rfind (c : ascii) (s : string) : Z := rfind_from c s 0%Z (-1)%Z.

(** The loop of [genericpath._splitext] that skips leading dots: is there a
    character other than a dot among the [n] characters from [filenameIndex]? *)
Fixpoint splitext_scan (p : string) (filenameIndex n : nat) : bool :=
  match n with
  | O => false
  | S n' =>
      match String.get filenameIndex p with
      | Some "."%char => splitext_scan p (S filenameIndex) n'
      | _ => true
      end
  end.

(** [os.path.splitext] on POSIX. *)
Definition splitext (p : string) : string * string :=
  let sepIndex := rfind "/" p in
  let dotIndex := rfind "." p in
  if (sepIndex <? dotIndex)%Z
     && splitext_scan p (Z.to_nat (sepIndex + 1)) (Z.to_nat (dotIndex - (sepIndex + 1)))
  then (String.substring 0 (Z.to_nat dotIndex) p,
        String.substring (Z.to_nat dotIndex) (String.length p - Z.to_nat dotIndex) p)
  else (p, "").

Definition str_endswith (s suffix : string) : bool :=
  let n := String.length s in
  let m := String.length suffix in
  (m <=? n)%nat && String.eqb (String.substring (n - m) m s) suffix.

(** ASCII white space, on which [str.split()] separates. *)
Definition isspace (c : ascii) : bool :=
  let n := nat_of_ascii c in
  ((9 <=? n)%nat && (n <=? 13)%nat) || ((28 <=? n)%nat && (n <=? 32)%nat).

Definition flush_word (cur : string) : list string :=
  if String.eqb cur "" then [] else [cur].

(** [s.split()]: the maximal runs of characters that are not white space. *)
Fixpoint str_split_go (cur : string) (s : string) : list string :=
  match s with
  | EmptyString => flush_word cur
  | String c s' =>
      if isspace c then flush_word cur ++ str_split_go "" s'
      else str_split_go (cur ++ String c "") s'
  end.

Definition str_split (s : string) : list string := str_split_go "" s.

(** [sep.join(iterable)]: every item must be a str. *)
Definition str_join (sep : string) (items : value) : res string :=
  xs ← iter_values items;
  parts ← mapM (λ x, match x with
                     | VStr s => Ok s
                     | _ => Raise (TypeError "sequence item: expected str instance")
                     end) xs;
  Ok (String.concat sep parts).

(** The attributes of [str] objects. *)
Definition str_attributes : list string :=
  [ "capitalize"; "casefold"; "center"; "count"; "encode"; "endswith";
    "expandtabs"; "find"; "format"; "format_map"; "index"; "isalnum";
    "isalpha"; "isascii"; "isdecimal"; "isdigit"; "isidentifier"; "islower";
    "isnumeric"; "isprintable"; "isspace"; "istitle"; "isupper"; "join";
    "ljust"; "lower"; "lstrip"; "maketrans"; "partition"; "removeprefix";
    "removesuffix"; "replace"; "rfind"; "rindex"; "rjust"; "rpartition";
    "rsplit"; "rstrip"; "split"; "splitlines"; "startswith"; "strip";
    "swapcase"; "title"; "translate"; "upper"; "zfill"; "decode" ].

(** ** The environment of the module *)

Record World : Type := mkWorld {
  (** builtins *)
  float_ : string → res float64;
  readlines : string → res (list string);
  read : string → res string;
  call_str : string → string → list value → res value;
  call_global : string → list value → res value;
  (** the interpreter on objects that are not plain builtin values: calling a
      method of such an object, and [operator.index] of it *)
  call_method : value → string → list value → res value;
  py_index : value → res Z;
  (** simtk.openmm.app *)
  new_PDBFile : string → res value;
  new_ForceField : list value → res value;
  new_AmberPrmtopFile : string → res value;
  new_AmberInpcrdFile : string → res value;
  new_CharmmPsfFile : string → res value;
  new_CharmmParameterSet : list value → res value;
  getUnitCellDimensions : value → res value;
  loadParameters : value → value → res value;
  ForceField_createSystem : value → value → gmap string value → res value;
  AmberPrmtopFile_createSystem : value → gmap string value → res value;
  CharmmPsfFile_createSystem : value → value → gmap string value → res value;
  (** simtk.openmm.XmlSerializer and the deserialized state *)
  XmlSerializer_deserialize : string → res value;
  getPositions : value → res value;
  getVelocities : value → res value;
  getPeriodicBoxVectors : value → res value;
  (** parmed *)
  NamdBinCoor_read : string → res value;
  NamdBinVel_read : string → res value;
  parmed_load_file : string → res value;
  (** openmoltools.utils *)
  create_ffxml_file : value → res value;
  (** ommprotocol.ommprotocol *)
  FORCEFIELDS : value
}.

(** Attribute reference on a str: a name that str does not define raises
    AttributeError, otherwise the bound method is returned. *)
Definition str_getattr (w : World) (self name : string) : res (list value → res value) :=
  if bool_decide (name ∈ str_attributes) then Ok (call_str w name self)
  else Raise (AttributeError ("'str' object has no attribute '" ++ name ++ "'")).

(** Binding of [**kwargs] to the keyword parameters a function declares. *)
Definition bind_keywords (params : list string) (kwargs : gmap string value) : res unit :=
  if forallb (λ kv, bool_decide (kv.1 ∈ params)) (map_to_list kwargs) then Ok ()
  else Raise (TypeError "got an unexpected keyword argument").

(** ** Helpers *)

(** [process_forcefield], lines 486-495, applied to the unpacked file names:
    the generator, as the list it yields when it is consumed.  A str, and
    the builtin values that have no [endswith], are decided here; for any other
    object [endswith] is a call into the object. *)
Definition process_forcefield (w : World) (forcefields : list value) : res (list value) :=
  mapM (λ forcefield,
          frcmod ← match forcefield with
                   | VStr s => Ok (str_endswith s ".frcmod")
                   | VNone | VBool _ | VInt _ | VFloat _ | VList _ | VTuple _ =>
                       Raise (AttributeError "endswith")
                   | _ => truthy <$> call_method w forcefield "endswith" [VStr ".frcmod"]
                   end;
          if (frcmod : bool) then create_ffxml_file w forcefield
          else Ok forcefield) forcefields.

(** ** SystemHandler *)

Module SystemHandler.

Record t : Type := mk {
  container : InputContainer;
  master : value;
  _path : value
}.

(** [__init__(self, master=None, **kwargs)], lines 254-257. *)
Definition init (master : value) (kwargs : gmap string value) : res t :=
  c ← InputContainer_init kwargs;
  Ok (mk c master (kwarg kwargs "path")).

(** [from_pdb(cls, path, forcefields=None)], lines 179-209. *)
Definition from_pdb (w : World) (path : string) (forcefields : value) : res t :=
  pdb ← new_PDBFile w path;
  topology ← getattr pdb "topology";
  box ← getUnitCellDimensions w topology;
  positions ← getattr pdb "positions";
  let velocities := getattr_default pdb "velocities" VNone in
  forcefields ← (if negb (truthy forcefields)
                 then (_ ← str_join ", " (FORCEFIELDS w); Ok (FORCEFIELDS w))
                 else Ok forcefields);
  args ← iter_values forcefields;
  files ← process_forcefield w args;
  ff ← new_ForceField w files;
  pdb ← setattr pdb "forcefield" ff;
  topology ← getattr pdb "topology";
  init pdb (<["topology" := topology]> (<["positions" := positions]>
           (<["velocities" := velocities]> (<["box" := box]>
           (<["path" := VStr path]> ∅))))).

(** [from_prmtop(cls, path)], lines 211-227. *)
Definition from_prmtop (w : World) (path : string) : res t :=
  prmtop ← new_AmberPrmtopFile w path;
  topology ← getattr prmtop "topology";
  init prmtop (<["topology" := topology]> (<["path" := VStr path]> ∅)).

(** [from_psf(cls, path, charmm_parameters=None)], lines 229-252. *)
Definition from_psf (w : World) (path : string) (charmm_parameters : value) : res t :=
  psf ← new_CharmmPsfFile w path;
  if is_None charmm_parameters
  then Raise (ValueError "ERROR: PSF files require charmm_parameters")
  else
    args ← iter_values charmm_parameters;
    parmset ← new_CharmmParameterSet w args;
    psf ← setattr psf "parmset" parmset;
    parmset ← getattr psf "parmset";
    psf ← loadParameters w psf parmset;
    topology ← getattr psf "topology";
    init psf (<["topology" := topology]> (<["path" := VStr path]> ∅)).

Definition no_system : string := "This instance is not able to create systems.".
Definition no_forcefield : string :=
  "PDB topology files must be instanciated with forcefield paths.".
Definition no_parmset : string :=
  "PSF topology files must be instanciated with Charmm parameters.".

(** [create_system(self, system_options=None)], lines 259-281.  Falling off
    the end of the method returns [None]. *)
Definition create_system (w : World) (self : t)
    (system_options : option (gmap string value)) : res value :=
  if is_None (master self) then Raise (ValueError no_system)
  else
    let system_options := default ∅ system_options in
    is_pdb ← isinstance (master self) (VClass PDBFile);
    if (is_pdb : bool) then
      if negb (hasattr (master self) "forcefield") then Raise (ValueError no_forcefield)
      else
        ff ← getattr (master self) "forcefield";
        ForceField_createSystem w ff (_topology (container self)) system_options
    else
      is_prmtop ← isinstance (master self) (VClass AmberPrmtopFile);
      if (is_prmtop : bool) then AmberPrmtopFile_createSystem w (master self) system_options
      else
        is_psf ← isinstance (master self) (VClass CharmmPsfFile);
        if (is_psf : bool) then
          if negb (hasattr (master self) "parmset") then Raise (ValueError no_parmset)
          else
            parmset ← getattr (master self) "parmset";
            CharmmPsfFile_createSystem w (master self) parmset system_options
        else Ok VNone.

End SystemHandler.

(** ** Positions, Velocities, BoxVectors *)

Module Positions.

(** Lines 306-309. *)
Definition from_pdb (w : World) (path : string) : res value :=
  pdb ← new_PDBFile w path;
  getattr pdb "positions".

(** Lines 311-315. *)
Definition from_coor (w : World) (path : string) : res value :=
  coor ← NamdBinCoor_read w path;
  coordinates ← getattr coor "coordinates";
  first ← getitem coordinates 0;
  Ok (VQuantity first angstroms).

(** Lines 317-320. *)
Definition from_inpcrd (w : World) (path : string) : res value :=
  inpcrd ← new_AmberInpcrdFile w path;
  getattr inpcrd "positions".

End Positions.

Module Velocities.

(** Lines 342-346. *)
Definition from_vel (w : World) (path : string) : res value :=
  vel ← NamdBinVel_read w path;
  velocities ← getattr vel "velocities";
  first ← getitem velocities 0;
  Ok (VQuantity first angstroms_per_picosecond).

End Velocities.

(** *** collections.namedtuple *)

Definition python_keywords : list string :=
  [ "False"; "None"; "True"; "and"; "as"; "assert"; "async"; "await"; "break";
    "class"; "continue"; "def"; "del"; "elif"; "else"; "except"; "finally";
    "for"; "from"; "global"; "if"; "import"; "in"; "is"; "lambda"; "nonlocal";
    "not"; "or"; "pass"; "raise"; "return"; "try"; "while"; "with"; "yield" ].

Definition isidstart (c : ascii) : bool :=
  let n := nat_of_ascii c in
  ((65 <=? n)%nat && (n <=? 90)%nat) || ((97 <=? n)%nat && (n <=? 122)%nat)
  || (n =? 95)%nat.

Definition isidpart (c : ascii) : bool :=
  let n := nat_of_ascii c in
  isidstart c || ((48 <=? n)%nat && (n <=? 57)%nat).

(** [str.isidentifier] on ASCII text. *)
Definition isidentifier (s : string) : bool :=
  match s with
  | EmptyString => false
  | String c rest => isidstart c && forallb isidpart (String.list_ascii_of_string rest)
  end.

Definition startswith_underscore (s : string) : bool :=
  match s with
  | String "_"%char _ => true
  | _ => false
  end.

(** The checks [namedtuple] makes on the field names, in order. *)
Fixpoint check_field_names (seen names : list string) : res unit :=
  match names with
  | [] => Ok ()
  | name :: rest =>
      if negb (isidentifier name) || bool_decide (name ∈ python_keywords)
      then Raise (ValueError "Type names and field names must be valid identifiers")
      else if startswith_underscore name
      then Raise (ValueError "Field names cannot start with an underscore")
      else if bool_decide (name ∈ seen)
      then Raise (ValueError "Encountered duplicate field name")
      else check_field_names (name :: seen) rest
  end.

(** [namedtuple(typename, field_names)]: the class, given by its fields. *)
Definition namedtuple (typename : string) (field_names : list string) : res (list string) :=
  _ ← check_field_names [] field_names;
  Ok field_names.

(** Calling the class with positional arguments: one per field. *)
Definition namedtuple_new (typename : string) (fields : list string)
    (args : list value) : res value :=
  if (length args =? length fields)%nat
  then Ok (VObject (UserClass typename py_tuple) (zip fields args))
  else Raise (TypeError "__new__() wrong number of positional arguments").

Definition list_getitem {A} (l : list A) (i : nat) : res A :=
  match l !! i with
  | Some x => Ok x
  | None => Raise (IndexError "list index out of range")
  end.

Module BoxVectors.

(** The inner function [parse(path)], lines 372-389. *)
Definition parse (w : World) (path : string) : res value :=
  lines ← readlines w path;
  header ← list_getitem lines 1;
  NamedXsc ← namedtuple "NamedXsc" (drop 1 (str_split header));
  values ← list_getitem lines 2;
  numbers ← mapM (float_ w) (str_split values);
  namedtuple_new "NamedXsc" NamedXsc (VFloat <$> numbers).

(** [from_xsc(cls, path)], lines 368-394. *)
Definition from_xsc (w : World) (path : string) : res value :=
  xsc ← parse w path;
  a_x ← getattr xsc "a_x";
  b_y ← getattr xsc "b_y";
  c_z ← getattr xsc "c_z";
  Ok (VQuantity (VList [ VList [a_x; VInt 0; VInt 0];
                         VList [VInt 0; b_y; VInt 0];
                         VList [VInt 0; VInt 0; c_z] ]) angstroms).

End BoxVectors.

(** ** Restart *)

Module Restart.

(** [from_xml(cls, path)], lines 414-421. *)
Definition from_xml (w : World) (path : string) : res InputContainer :=
  text ← read w path;
  xml ← XmlSerializer_deserialize w text;
  positions ← getPositions w xml;
  velocities ← getVelocities w xml;
  box ← getPeriodicBoxVectors w xml;
  InputContainer_init (<["positions" := positions]> (<["velocities" := velocities]>
                      (<["box" := box]> ∅))).

(** [from_rst(cls, path)], lines 423-435. *)
Definition from_rst (w : World) (path : string) : res InputContainer :=
  rst ← parmed_load_file w path;
  coordinates ← getattr rst "coordinates";
  first ← getitem coordinates 0;
  let positions := VQuantity first angstroms in
  hasvels ← getattr rst "hasvels";
  velocities ← (if truthy hasvels
                then (vs ← getattr rst "velocities";
                      v0 ← getitem vs 0;
                      Ok (VQuantity v0 angstroms_per_picosecond))
                else Ok VNone);
  hasbox ← getattr rst "hasbox";
  box ← (if truthy hasbox
         then (cl ← getattr rst "cell_lengths"; l0 ← getitem cl 0;
               cl ← getattr rst "cell_lengths"; l1 ← getitem cl 1;
               cl ← getattr rst "cell_lengths"; l2 ← getitem cl 2;
               Ok (VQuantity (VList [ VList [l0; VInt 0; VInt 0];
                                      VList [VInt 0; l1; VInt 0];
                                      VList [VInt 0; VInt 0; l2] ]) angstroms))
         else Ok VNone);
  InputContainer_init (<["positions" := positions]> (<["velocities" := velocities]>
                      (<["box" := box]> ∅))).

End Restart.

(** ** MultiFormatLoader *)

(** The loader classes, and the class methods their tables hold. *)
Inductive loader : Type :=
  | cls_MultiFormatLoader
  | cls_SystemHandler
  | cls_Positions
  | cls_Velocities
  | cls_BoxVectors
  | cls_Restart.

Inductive classmethod : Type :=
  | SystemHandler_from_pdb
  | SystemHandler_from_prmtop
  | SystemHandler_from_psf
  | Positions_from_pdb
  | Positions_from_coor
  | Positions_from_inpcrd
  | Velocities_from_vel
  | BoxVectors_from_xsc
  | Restart_from_xml
  | Restart_from_rst.

(** What a loader returns. *)
Inductive loaded : Type :=
  | LSystemHandler (s : SystemHandler.t)
  | LRestart (c : InputContainer)
  | LQuantity (v : value).

(** Subscription [d[key]] of a dict literal with str keys. *)
Definition dict_getitem (d : gmap string classmethod) (key : value) : res classmethod :=
  match key with
  | VStr k =>
      match d !! k with
      | Some m => Ok m
      | None => Raise (KeyError k)
      end
  | VList _ => Raise (TypeError "unhashable type: 'list'")
  | _ => Raise (KeyError "")
  end.

Module MultiFormatLoader.

(** The tables of lines 172-177, 299-304, 338-340, 364-366 and 437-441. *)
Definition SystemHandler_table : gmap string classmethod :=
  <["pdb" := SystemHandler_from_pdb]> (<["prmtop" := SystemHandler_from_prmtop]>
  (<["top" := SystemHandler_from_prmtop]> (<["psf" := SystemHandler_from_psf]> ∅))).

Definition Positions_table : gmap string classmethod :=
  <["pdb" := Positions_from_pdb]> (<["coor" := Positions_from_coor]>
  (<["inpcrd" := Positions_from_inpcrd]> (<["crd" := Positions_from_inpcrd]> ∅))).

Definition Velocities_table : gmap string classmethod :=
  <["vel" := Velocities_from_vel]> ∅.

Definition BoxVectors_table : gmap string classmethod :=
  <["xsc" := BoxVectors_from_xsc]> ∅.

Definition Restart_table : gmap string classmethod :=
  <["xml" := Restart_from_xml]> (<["rst" := Restart_from_rst]>
  (<["restart" := Restart_from_rst]> ∅)).

(** [cls._loaders(ext)]: the override of each class, lines 90-92 for the
    base class. *)
Definition _loaders (cls : loader) (ext : value) : res classmethod :=
  match cls with
  | cls_MultiFormatLoader => Raise (NotImplementedError "Override this method")
  | cls_SystemHandler => dict_getitem SystemHandler_table ext
  | cls_Positions => dict_getitem Positions_table ext
  | cls_Velocities => dict_getitem Velocities_table ext
  | cls_BoxVectors => dict_getitem BoxVectors_table ext
  | cls_Restart => dict_getitem Restart_table ext
  end.

(** Calling a class method with [path] and the keyword options. *)
Definition call (w : World) (m : classmethod) (path : string)
    (kwargs : gmap string value) : res loaded :=
  match m with
  | SystemHandler_from_pdb =>
      _ ← bind_keywords ["forcefields"] kwargs;
      LSystemHandler <$> SystemHandler.from_pdb w path (kwarg kwargs "forcefields")
  | SystemHandler_from_prmtop =>
      _ ← bind_keywords [] kwargs;
      LSystemHandler <$> SystemHandler.from_prmtop w path
  | SystemHandler_from_psf =>
      _ ← bind_keywords ["charmm_parameters"] kwargs;
      LSystemHandler <$> SystemHandler.from_psf w path (kwarg kwargs "charmm_parameters")
  | Positions_from_pdb =>
      _ ← bind_keywords [] kwargs; LQuantity <$> Positions.from_pdb w path
  | Positions_from_coor =>
      _ ← bind_keywords [] kwargs; LQuantity <$> Positions.from_coor w path
  | Positions_from_inpcrd =>
      _ ← bind_keywords [] kwargs; LQuantity <$> Positions.from_inpcrd w path
  | Velocities_from_vel =>
      _ ← bind_keywords [] kwargs; LQuantity <$> Velocities.from_vel w path
  | BoxVectors_from_xsc =>
      _ ← bind_keywords [] kwargs; LQuantity <$> BoxVectors.from_xsc w path
  | Restart_from_xml =>
      _ ← bind_keywords [] kwargs; LRestart <$> Restart.from_xml w path
  | Restart_from_rst =>
      _ ← bind_keywords [] kwargs; LRestart <$> Restart.from_rst w path
  end.

(** The two [except] clauses of [load], lines 85-88. *)
Definition load_except {A} (ext path : string) (r : res A) : res A :=
  match r with
  | Raise (KeyError _) =>
      Raise (NotImplementedError ("Unknown loader for format " ++ ext))
  | Raise (IOError _) => Raise (IOError ("Could not access file " ++ path))
  | _ => r
  end.

(** [load(cls, path, **kwargs)], lines 80-88. *)
Definition load (w : World) (cls : loader) (path : string)
    (kwargs : gmap string value) : res loaded :=
  let '(name, ext) := splitext path in
  load_except ext path
    (lsplit ← str_getattr w ext "lsplit";
     key ← lsplit [VStr "."];
     loader ← _loaders cls key;
     call w loader path kwargs).

End MultiFormatLoader.

(** ** assert_not_exists *)

(** ['{}.{}{}'.format(name, i, ext)]. *)
Definition numbered (name : string) (i : nat) (ext : string) : string :=
  name ++ "." ++ pretty i ++ ext.

(** The [while] loop of lines 480-482 on the paths [fs] that exist, run for at
    most [fuel] tests of the condition. *)
Fixpoint assert_not_exists_loop (fuel : nat) (fs : gset string)
    (name ext path : string) (i : nat) : option string :=
  match fuel with
  | O => None
  | S fuel' =>
      if bool_decide (path ∈ fs)
      then assert_not_exists_loop fuel' fs name ext (numbered name i ext) (S i)
      else Some path
  end.

(** [assert_not_exists(path)], lines 461-483. *)
Definition assert_not_exists_fuel (fuel : nat) (fs : gset string) (path : string)
  : option string :=
  let '(name, ext) := splitext path in
  assert_not_exists_loop fuel fs name ext path 1.

(** The numbered names are pairwise distinct, so a set of [n] existing paths
    is exhausted after [n + 2] tests. *)
Definition assert_not_exists (fs : gset string) (path : string) : option string :=
  assert_not_exists_fuel (S (S (size fs))) fs path.

(** The names the loop holds in [path] on its successive turns: the path
    itself, then the numbered ones. *)
Definition tried (name ext path : string) (k : nat) : string :=
  match k with
  | O => path
  | S _ => numbered name k ext
  end.

Definition candidate (path : string) (k : nat) : string :=
  tried (splitext path).1 (splitext path).2 path k.

(** ** random_string *)

(** The names bound at module level: imports, classes and functions. *)
Definition module_globals : list string :=
  [ "os"; "sys"; "namedtuple"; "ArgumentParser"; "u"; "Topology"; "PDBFile";
    "ForceField"; "AmberPrmtopFile"; "AmberInpcrdFile"; "CharmmPsfFile";
    "CharmmParameterSet"; "XmlSerializer"; "NamdBinCoor"; "NamdBinVel";
    "parmed_load_file"; "create_ffxml_file"; "yaml"; "ommprotocol";
    "YamlLoader"; "MultiFormatLoader"; "InputContainer"; "SystemHandler";
    "Positions"; "Velocities"; "BoxVectors"; "Restart"; "parse_arguments";
    "assert_not_exists"; "process_forcefield"; "validate"; "random_string";
    "__name__"; "__doc__"; "__file__"; "__builtins__" ].

(** The functions and constants of the builtins module. *)
Definition builtin_names : list string :=
  [ "abs"; "all"; "any"; "ascii"; "bin"; "bool"; "breakpoint"; "bytearray";
    "bytes"; "callable"; "chr"; "classmethod"; "compile"; "complex";
    "delattr"; "dict"; "dir"; "divmod"; "enumerate"; "eval"; "exec"; "filter";
    "float"; "format"; "frozenset"; "getattr"; "globals"; "hasattr"; "hash";
    "help"; "hex"; "id"; "input"; "int"; "isinstance"; "issubclass"; "iter";
    "len"; "list"; "locals"; "map"; "max"; "memoryview"; "min"; "next";
    "object"; "oct"; "open"; "ord"; "pow"; "print"; "property"; "range";
    "repr"; "reversed"; "round"; "set"; "setattr"; "slice"; "sorted";
    "staticmethod"; "str"; "sum"; "super"; "tuple"; "type"; "vars"; "zip";
    "__import__"; "True"; "False"; "None"; "Ellipsis"; "NotImplemented";
    "__debug__"; "exit"; "quit"; "copyright"; "credits"; "license";
    "BaseException"; "Exception"; "ArithmeticError"; "AssertionError";
    "AttributeError"; "BufferError"; "EOFError"; "EnvironmentError";
    "FloatingPointError"; "GeneratorExit"; "IOError"; "ImportError";
    "IndentationError"; "IndexError"; "KeyError"; "KeyboardInterrupt";
    "LookupError"; "MemoryError"; "NameError"; "NotImplementedError";
    "OSError"; "OverflowError"; "ReferenceError"; "RuntimeError";
    "StopIteration"; "SyntaxError"; "SystemError"; "SystemExit"; "TabError";
    "TypeError"; "UnboundLocalError"; "UnicodeError"; "ValueError";
    "ZeroDivisionError"; "Warning"; "DeprecationWarning"; "UserWarning" ].

(** Evaluation of a global name inside a function of the module. *)
Definition load_global (name : string) : res string :=
  if bool_decide (name ∈ (module_globals ++ builtin_names)%list) then Ok name
  else Raise (NameError ("name '" ++ name ++ "' is not defined")).

(** [range(stop)]: an int or a bool is taken as it is, the builtin values that
    are no integers are refused, and any other object is asked for its index. *)
Definition range (w : World) (stop : value) : res (list Z) :=
  match stop with
  | VInt z => Ok (seqZ 0 z)
  | VBool b => Ok (seqZ 0 (if b then 1 else 0))
  | VNone | VFloat _ | VStr _ | VList _ | VTuple _ =>
      Raise (TypeError "object cannot be interpreted as an integer")
  | _ => z ← py_index w stop; Ok (seqZ 0 z)
  end.

(** [random_string(length=5)], lines 506-507: the generator expression is
    consumed by [join], one element for each index of the range. *)
Definition random_string (w : World) (length : value) : res value :=
  indices ← range w length;
  chars ← mapM (λ _ : Z,
                  f ← load_global "choice";
                  a ← load_global "ascii_letters";
                  call_global w f [VStr a]) indices;
  s ← str_join "" (VList chars);
  Ok (VStr s).

Definition random_string_default (w : World) : res value := random_string w (VInt 5).

(** ** A sample environment

    Library calls succeed on the files below and fail on any other path. *)

Definition sample_topology : value := VObject Topology [("atoms", VInt 3)].

Definition sample_coordinates : value :=
  VList [VList [VInt 0; VInt 0; VInt 0]; VList [VInt 1; VInt 0; VInt 0]].

Definition sample_pdb : value :=
  VObject PDBFile [("topology", sample_topology);
                   ("positions", VQuantity sample_coordinates angstroms)].

Definition sample_psf : value :=
  VObject CharmmPsfFile [("topology", sample_topology)].

Definition sample_rst : value :=
  VObject (UserClass "Rst7" NoneType)
    [("coordinates", VList [sample_coordinates]);
     ("hasvels", VBool false); ("hasbox", VBool false)].

Definition sample_xsc : list string :=
  [ "# NAMD extended system configuration output file" +:+ String "010" "";
    "#$LABELS step a_x b_y c_z" +:+ String "010" "";
    "0 10.0 20.0 30.0" +:+ String "010" "" ].

Definition f64_0 : float64 := Float64 0.
Definition f64_10 : float64 := Float64 0x4024000000000000.
Definition f64_20 : float64 := Float64 0x4034000000000000.
Definition f64_30 : float64 := Float64 0x403E000000000000.

Definition no_file {A} (path : string) : res A :=
  Raise (IOError ("No such file or directory: " +:+ path)).

Definition sample_world : World := {|
  float_ := λ s,
    if String.eqb s "0" then Ok f64_0
    else if String.eqb s "10.0" then Ok f64_10
    else if String.eqb s "20.0" then Ok f64_20
    else if String.eqb s "30.0" then Ok f64_30
    else Raise (ValueError "could not convert string to float");
  readlines := λ path, if String.eqb path "box.xsc" then Ok sample_xsc else no_file path;
  read := λ path, no_file path;
  call_str := λ _ _ _, Raise (TypeError "bad arguments");
  call_global := λ _ _, Raise (TypeError "bad arguments");
  call_method := λ _ name _, Raise (AttributeError name);
  py_index := λ _, Raise (TypeError "object cannot be interpreted as an integer");
  new_PDBFile := λ path, if String.eqb path "model.pdb" then Ok sample_pdb else no_file path;
  new_ForceField := λ files, Ok (VObject ForceField [("files", VList files)]);
  new_AmberPrmtopFile := λ path, no_file path;
  new_AmberInpcrdFile := λ path, no_file path;
  new_CharmmPsfFile := λ path, if String.eqb path "model.psf" then Ok sample_psf else no_file path;
  new_CharmmParameterSet := λ files, Ok (VObject CharmmParameterSet [("files", VList files)]);
  getUnitCellDimensions := λ _, Ok VNone;
  loadParameters := λ psf _, Ok psf;
  ForceField_createSystem := λ _ _ _, Raise (LibraryError "no templates");
  AmberPrmtopFile_createSystem := λ _ _, Raise (LibraryError "no parameters");
  CharmmPsfFile_createSystem := λ _ _ _, Raise (LibraryError "no parameters");
  XmlSerializer_deserialize := λ _, Raise (LibraryError "not a serialized state");
  getPositions := λ _, Raise (LibraryError "no state");
  getVelocities := λ _, Raise (LibraryError "no state");
  getPeriodicBoxVectors := λ _, Raise (LibraryError "no state");
  NamdBinCoor_read := λ path, no_file path;
  NamdBinVel_read := λ path, no_file path;
  parmed_load_file := λ path, if String.eqb path "run.rst" then Ok sample_rst else no_file path;
  create_ffxml_file := λ frcmod,
    match frcmod with
    | VStr s => Ok (VStr (s +:+ ".ffxml"))
    | _ => Raise (TypeError "expected a file name")
    end;
  FORCEFIELDS := VList [VStr "amber99sbildn.xml"; VStr "tip3p.xml"]
|}.

(** ** Definitions used by the statements *)

(** The masters on which [create_system] refuses to work, each with the
    message of its ValueError. *)
Inductive unusable : value → string → Prop :=
  | unusable_no_master :
      unusable VNone SystemHandler.no_system
  | unusable_pdb (m : value) :
      issubclass (type_of m) PDBFile = true →
      hasattr m "forcefield" = false →
      unusable m SystemHandler.no_forcefield
  | unusable_psf (m : value) :
      issubclass (type_of m) CharmmPsfFile = true →
      hasattr m "parmset" = false →
      unusable m SystemHandler.no_parmset.

(** A handler built without a master, as from a restart file, and handlers
    around a given master. *)
Definition restart_like : SystemHandler.t :=
  SystemHandler.mk
    (mkInputContainer sample_topology (VQuantity sample_coordinates angstroms)
                      (VQuantity sample_coordinates angstroms_per_picosecond)
                      (VQuantity (VList []) angstroms))
    VNone VNone.

Definition with_master (m : value) : SystemHandler.t :=
  SystemHandler.mk (SystemHandler.container restart_like) m (VStr "model").

(** The keys each loader class supports, with the class method each selects. *)
Definition supported (cls : loader) : list (string * classmethod) :=
  match cls with
  | cls_MultiFormatLoader => []
  | cls_SystemHandler =>
      [("pdb", SystemHandler_from_pdb); ("prmtop", SystemHandler_from_prmtop);
       ("top", SystemHandler_from_prmtop); ("psf", SystemHandler_from_psf)]
  | cls_Positions =>
      [("pdb", Positions_from_pdb); ("coor", Positions_from_coor);
       ("inpcrd", Positions_from_inpcrd); ("crd", Positions_from_inpcrd)]
  | cls_Velocities => [("vel", Velocities_from_vel)]
  | cls_BoxVectors => [("xsc", BoxVectors_from_xsc)]
  | cls_Restart =>
      [("xml", Restart_from_xml); ("rst", Restart_from_rst);
       ("restart", Restart_from_rst)]
  end.

(** The matrix with [a], [b], [c] on the diagonal and the integer 0
    elsewhere. *)
Definition diagonal (a b c : value) : value :=
  VList [ VList [a; VInt 0; VInt 0];
          VList [VInt 0; b; VInt 0];
          VList [VInt 0; VInt 0; c] ].

(** ** The container as a state: fields and assignments *)

Inductive field : Type :=
  | f_topology
  | f_positions
  | f_velocities
  | f_box.

#[global] Instance field_eq_dec : EqDecision field.
Proof. solve_decision. Defined.

(** The property getters, lines 112-138, and the setter of each field. *)
Definition get_field (f : field) (self : InputContainer) : value :=
  match f with
  | f_topology => _topology self
  | f_positions => _positions self
  | f_velocities => _velocities self
  | f_box => _box self
  end.

Definition set_field (f : field) : value → InputContainer → res unit * InputContainer :=
  match f with
  | f_topology => set_topology
  | f_positions => set_positions
  | f_velocities => set_velocities
  | f_box => set_box
  end.

(** The class named first in the tuple each setter hands to [validate]. *)
Definition expected_class (f : field) : class :=
  match f with
  | f_topology => Topology
  | f_positions | f_velocities | f_box => Quantity
  end.

(** The properties [has_topology] .. [has_box], lines 144-158. *)
Definition has_field (f : field) (self : InputContainer) : bool :=
  match f with
  | f_topology => has_topology self
  | f_positions => has_positions self
  | f_velocities => has_velocities self
  | f_box => has_box self
  end.

(** A field holds [None] or an instance of its class. *)
Definition field_ok (f : field) (self : InputContainer) : Prop :=
  get_field f self = VNone
  ∨ issubclass (type_of (get_field f self)) (expected_class f) = true.

Definition well_typed (self : InputContainer) : Prop :=
  ∀ f, field_ok f self.

(** The object as the first four lines of [__init__] leave it. *)
Definition blank : InputContainer := mkInputContainer VNone VNone VNone VNone.

(** A caller making one assignment after the other, going on after an
    assignment that raised. *)
Fixpoint run_assignments (ops : list (field * value)) (self : InputContainer)
  : InputContainer :=
  match ops with
  | [] => self
  | (f, obj) :: rest => run_assignments rest (set_field f obj self).2
  end.

(** ** YamlLoader.construct_include *)

(** [s.lstrip(c)] for a one-character [c]. *)
Fixpoint str_lstrip (c : ascii) (s : string) : string :=
  match s with
  | EmptyString => EmptyString
  | String a s' => if Ascii.eqb a c then str_lstrip c s' else s
  end.

(** [c in s] for a one-character [c]. *)
Fixpoint has_char (c : ascii) (s : string) : bool :=
  match s with
  | EmptyString => false
  | String a s' => Ascii.eqb a c || has_char c s'
  end.

(** What a file opened in text mode for reading delivers of its content:
    every CR LF and every other CR has become LF. *)
Fixpoint universal_newlines (content : string) : string :=
  match content with
  | EmptyString => EmptyString
  | String c rest =>
      if Ascii.eqb c "013" then
        match rest with
        | String "010" rest' => String "010" (universal_newlines rest')
        | _ => String "010" (universal_newlines rest)
        end
      else String c (universal_newlines rest)
  end.

(** The lines of a text, each with the LF that ends it. *)
Fixpoint readlines_go (cur : string) (text : string) : list string :=
  match text with
  | EmptyString => flush_word cur
  | String c text' =>
      if Ascii.eqb c "010" then (cur +:+ String c "") :: readlines_go "" text'
      else readlines_go (cur +:+ String c "") text'
  end.

(** [f.readlines()] on a file opened with [open(filename, 'r')] whose content
    is [content]. *)
Definition readlines_of (content : string) : list string :=
  readlines_go "" (universal_newlines content).

(** What the include constructor takes from PyYAML, [os.path] and the file
    system; [open_text] is the content of a file as it is stored. *)
Record YamlWorld : Type := mkYamlWorld {
  construct_scalar : value → res string;
  abspath_join : string → string → string;
  open_text : string → res string;
  yaml_load : string → res value
}.

(** [construct_include(self, node)], lines 51-63, for a loader whose [_root]
    is [root]. *)
Definition construct_include (y : YamlWorld) (root : string) (node : value) : res value :=
  scalar ← construct_scalar y node;
  let filename := abspath_join y root scalar in
  let extension := str_lstrip "." (splitext filename).2 in
  content ← open_text y filename;
  if bool_decide (extension ∈ ["yaml"; "yml"])
  then yaml_load y (universal_newlines content)
  else Ok (VStr (String.concat "" (readlines_of content))).

(** ** A second sample environment, with a PDB file that carries velocities
    and a unit cell *)

Definition sample_box : value :=
  VQuantity (VList [VInt 3; VInt 3; VInt 3]) angstroms.

Definition sample_pdb_full : value :=
  VObject PDBFile [("topology", sample_topology);
                   ("positions", VQuantity sample_coordinates angstroms);
                   ("velocities", VQuantity sample_coordinates angstroms_per_picosecond)].

Definition sample_world_full : World := {|
  float_ := float_ sample_world;
  readlines := readlines sample_world;
  read := read sample_world;
  call_str := call_str sample_world;
  call_global := call_global sample_world;
  call_method := call_method sample_world;
  py_index := py_index sample_world;
  new_PDBFile := λ path,
    if String.eqb path "full.pdb" then Ok sample_pdb_full else no_file path;
  new_ForceField := new_ForceField sample_world;
  new_AmberPrmtopFile := new_AmberPrmtopFile sample_world;
  new_AmberInpcrdFile := new_AmberInpcrdFile sample_world;
  new_CharmmPsfFile := new_CharmmPsfFile sample_world;
  new_CharmmParameterSet := new_CharmmParameterSet sample_world;
  getUnitCellDimensions := λ _, Ok sample_box;
  loadParameters := loadParameters sample_world;
  ForceField_createSystem := λ ff topology _,
    Ok (VObject (UserClass "System" NoneType) [("forcefield", ff); ("topology", topology)]);
  AmberPrmtopFile_createSystem := AmberPrmtopFile_createSystem sample_world;
  CharmmPsfFile_createSystem := CharmmPsfFile_createSystem sample_world;
  XmlSerializer_deserialize := XmlSerializer_deserialize sample_world;
  getPositions := getPositions sample_world;
  getVelocities := getVelocities sample_world;
  getPeriodicBoxVectors := getPeriodicBoxVectors sample_world;
  NamdBinCoor_read := λ path,
    if String.eqb path "run.coor"
    then Ok (VObject (UserClass "NamdBinCoor" NoneType)
               [("coordinates", VList [sample_coordinates])])
    else no_file path;
  NamdBinVel_read := NamdBinVel_read sample_world;
  parmed_load_file := parmed_load_file sample_world;
  create_ffxml_file := create_ffxml_file sample_world;
  FORCEFIELDS := FORCEFIELDS sample_world
|}.

Definition sample_yaml : YamlWorld := {|
  construct_scalar := λ node,
    match node with
    | VStr s => Ok s
    | _ => Raise (LibraryError "expected a scalar node")
    end;
  abspath_join := λ root rel, root +:+ "/" +:+ rel;
  open_text := λ path,
    if String.eqb path "/conf/notes.txt"
    then Ok ("first" +:+ String "013" (String "010" "second"))
    else no_file path;
  yaml_load := λ _, Raise (LibraryError "not YAML")
|}.

(** The conversion one name undergoes. *)
Definition converted (w : World) (name : string) (out : value) : Prop :=
  if str_endswith name ".frcmod" then create_ffxml_file w (VStr name) = Ok out
  else out = VStr name.

(** An environment whose box-vector files hold the header and the values
    and nothing else, and one whose header has no label token. *)
Definition with_lines (lines : list string) : World := {|
  float_ := float_ sample_world;
  readlines := λ _, Ok lines;
  read := read sample_world;
  call_str := call_str sample_world;
  call_global := call_global sample_world;
  call_method := call_method sample_world;
  py_index := py_index sample_world;
  new_PDBFile := new_PDBFile sample_world;
  new_ForceField := new_ForceField sample_world;
  new_AmberPrmtopFile := new_AmberPrmtopFile sample_world;
  new_AmberInpcrdFile := new_AmberInpcrdFile sample_world;
  new_CharmmPsfFile := new_CharmmPsfFile sample_world;
  new_CharmmParameterSet := new_CharmmParameterSet sample_world;
  getUnitCellDimensions := getUnitCellDimensions sample_world;
  loadParameters := loadParameters sample_world;
  ForceField_createSystem := ForceField_createSystem sample_world;
  AmberPrmtopFile_createSystem := AmberPrmtopFile_createSystem sample_world;
  CharmmPsfFile_createSystem := CharmmPsfFile_createSystem sample_world;
  XmlSerializer_deserialize := XmlSerializer_deserialize sample_world;
  getPositions := getPositions sample_world;
  getVelocities := getVelocities sample_world;
  getPeriodicBoxVectors := getPeriodicBoxVectors sample_world;
  NamdBinCoor_read := NamdBinCoor_read sample_world;
  NamdBinVel_read := NamdBinVel_read sample_world;
  parmed_load_file := parmed_load_file sample_world;
  create_ffxml_file := create_ffxml_file sample_world;
  FORCEFIELDS := FORCEFIELDS sample_world
|}.

Definition two_line_world : World :=
  with_lines ["step a_x b_y c_z"; "0 10.0 20.0 30.0"].

Definition unlabelled_world : World :=
  with_lines ["# comment"; "step a_x b_y c_z"; "0 10.0 20.0 30.0"].

Definition no_c_z_world : World :=
  with_lines ["# comment"; "#$LABELS step a_x b_y"; "0 10.0 20.0"].

(** The builtin values whose type defines no [endswith] (unlike str, and
    unlike objects of other classes, which may define one). *)
Definition lacks_endswith (v : value) : bool :=
  match v with
  | VNone | VBool _ | VInt _ | VFloat _ | VList _ | VTuple _ => true
  | _ => false
  end.

(** The builtin values that [range] refuses: they are no integers and their
    type defines no [__index__]. *)
Definition plain_non_integer (v : value) : bool :=
  match v with
  | VNone | VFloat _ | VStr _ | VList _ | VTuple _ => true
  | _ => false
  end.

(** ** The split of a path, and the names tried, in words

    What [os.path.splitext] is documented to return, written without the
    search for the last dot: the extension is the part of the last component
    of the path from its last dot on, provided a character other than a dot
    comes before that dot in the component; otherwise it is empty. *)

Fixpoint all_dots (s : string) : bool :=
  match s with
  | EmptyString => true
  | String a s' => Ascii.eqb a "." && all_dots s'
  end.

(** [dir] is empty or ends with a slash: what follows it starts a component. *)
Definition is_dir (dir : string) : Prop :=
  dir = "" ∨ ∃ d, dir = d +:+ "/".

Inductive splits : string → string → string → Prop :=
  | splits_ext (dir dots : string) (c : ascii) (r e : string) :
      is_dir dir →
      all_dots dots = true →
      c ≠ "."%char →
      has_char "/" (String c r) = false →
      has_char "." e = false →
      has_char "/" e = false →
      splits (dir +:+ dots +:+ String c r +:+ String "." e)
             (dir +:+ dots +:+ String c r) (String "." e)
  | splits_plain (dir dots rest : string) :
      is_dir dir →
      all_dots dots = true →
      has_char "." rest = false →
      has_char "/" rest = false →
      splits (dir +:+ dots +:+ rest) (dir +:+ dots +:+ rest) "".

(** The sequence path, name.1.ext, name.2.ext, ... of the documentation. *)
Definition sequence_name (path name ext : string) (k : nat) : string :=
  match k with
  | O => path
  | S _ => name +:+ "." +:+ pretty k +:+ ext
  end.

(** ** Results: isinstance and validate *)

Lemma raises_bind {A B} (m : res A) (f : A → res B) : raises m → raises (m ≫= f).
Proof. by destruct m. Qed.

(** With [(c, None)] as second argument, [isinstance] is True on instances of
    [c] and raises on everything else: the scan reaches the member [None]. *)
Lemma isinstance_class_or_None (obj : value) (c : class) :
  isinstance obj (VTuple [VClass c; VNone]) =
    if issubclass (type_of obj) c then Ok true else Raise (TypeError isinstance_msg).
Proof. simpl. by destruct (issubclass (type_of obj) c). Qed.

Lemma validate_class_or_None (obj : value) (c : class) :
  validate obj (VTuple [VClass c; VNone]) =
    if issubclass (type_of obj) c then Ok obj else Raise (TypeError isinstance_msg).
Proof.
  unfold validate. rewrite isinstance_class_or_None.
  by destruct (issubclass (type_of obj) c).
Qed.

Lemma validate_None (c : class) :
  c ≠ NoneType → validate VNone (VTuple [VClass c; VNone]) = Raise (TypeError isinstance_msg).
Proof.
  intros Hc. rewrite validate_class_or_None. simpl.
  rewrite bool_decide_eq_false_2; [done | congruence].
Qed.

(** A wrong type is refused by every setter and the container is left as it
    was; a value of the expected class is stored. *)
Lemma set_topology_spec (obj : value) (self : InputContainer) :
  set_topology obj self =
    if issubclass (type_of obj) Topology
    then (Ok (), mkInputContainer obj (_positions self) (_velocities self) (_box self))
    else (Raise (TypeError isinstance_msg), self).
Proof.
  unfold set_topology. rewrite validate_class_or_None.
  by destruct (issubclass (type_of obj) Topology).
Qed.

Lemma set_positions_spec (obj : value) (self : InputContainer) :
  set_positions obj self =
    if issubclass (type_of obj) Quantity
    then (Ok (), mkInputContainer (_topology self) obj (_velocities self) (_box self))
    else (Raise (TypeError isinstance_msg), self).
Proof.
  unfold set_positions. rewrite validate_class_or_None.
  by destruct (issubclass (type_of obj) Quantity).
Qed.

Lemma set_velocities_spec (obj : value) (self : InputContainer) :
  set_velocities obj self =
    if issubclass (type_of obj) Quantity
    then (Ok (), mkInputContainer (_topology self) (_positions self) obj (_box self))
    else (Raise (TypeError isinstance_msg), self).
Proof.
  unfold set_velocities. rewrite validate_class_or_None.
  by destruct (issubclass (type_of obj) Quantity).
Qed.

Lemma set_box_spec (obj : value) (self : InputContainer) :
  set_box obj self =
    if issubclass (type_of obj) Quantity
    then (Ok (), mkInputContainer (_topology self) (_positions self) (_velocities self) obj)
    else (Raise (TypeError isinstance_msg), self).
Proof.
  unfold set_box. rewrite validate_class_or_None.
  by destruct (issubclass (type_of obj) Quantity).
Qed.

(** The constructor succeeds exactly when all four keywords carry a value of
    the expected class; a missing or [None] keyword makes it raise. *)
Lemma InputContainer_init_spec (kwargs : gmap string value) :
  InputContainer_init kwargs =
    if issubclass (type_of (kwarg kwargs "topology")) Topology
       && issubclass (type_of (kwarg kwargs "positions")) Quantity
       && issubclass (type_of (kwarg kwargs "velocities")) Quantity
       && issubclass (type_of (kwarg kwargs "box")) Quantity
    then Ok (mkInputContainer (kwarg kwargs "topology") (kwarg kwargs "positions")
                              (kwarg kwargs "velocities") (kwarg kwargs "box"))
    else Raise (TypeError isinstance_msg).
Proof.
  unfold InputContainer_init, assign.
  rewrite set_topology_spec.
  destruct (issubclass (type_of (kwarg kwargs "topology")) Topology); [|done].
  cbn [mbind res_bind]. rewrite set_positions_spec. cbn [_positions _velocities _box _topology].
  destruct (issubclass (type_of (kwarg kwargs "positions")) Quantity); [|done].
  cbn [mbind res_bind]. rewrite set_velocities_spec. cbn [_positions _velocities _box _topology].
  destruct (issubclass (type_of (kwarg kwargs "velocities")) Quantity); [|done].
  cbn [mbind res_bind]. rewrite set_box_spec. cbn [_positions _velocities _box _topology].
  by destruct (issubclass (type_of (kwarg kwargs "box")) Quantity).
Qed.

Lemma InputContainer_init_None (kwargs : gmap string value) (name : string) :
  name ∈ ["topology"; "positions"; "velocities"; "box"] →
  kwarg kwargs name = VNone →
  InputContainer_init kwargs = Raise (TypeError isinstance_msg).
Proof.
  intros Hin Hnone. rewrite InputContainer_init_spec.
  assert (Hcases : name = "topology" ∨ name = "positions"
                   ∨ name = "velocities" ∨ name = "box").
  { rewrite !elem_of_cons in Hin. rewrite elem_of_nil in Hin. tauto. }
  destruct Hcases as [-> | [-> | [-> | ->]]]; rewrite Hnone; cbn [type_of];
    change (issubclass NoneType Topology) with false;
    change (issubclass NoneType Quantity) with false;
    rewrite ?andb_false_r; done.
Qed.

(** C2: assigning [None] to any of the four fields raises TypeError and stores
    nothing, although the claim says that [None] is accepted: the second
    argument [(Topology, None)] of [isinstance] holds the object [None], which
    is not a class.  Hence the constructor called without keywords raises
    too. *)
Theorem assigning_None_raises (self : InputContainer) :
  set_topology VNone self = (Raise (TypeError isinstance_msg), self)
  ∧ set_positions VNone self = (Raise (TypeError isinstance_msg), self)
  ∧ set_velocities VNone self = (Raise (TypeError isinstance_msg), self)
  ∧ set_box VNone self = (Raise (TypeError isinstance_msg), self)
  ∧ InputContainer_init ∅ = Raise (TypeError isinstance_msg).
Proof.
  rewrite set_topology_spec, set_positions_spec, set_velocities_spec, set_box_spec.
  repeat split; try done.
Qed.

(** ** Results: SystemHandler.create_system *)

Lemma issubclass_UserClass (name : string) (base d : class) :
  d ≠ UserClass name base → issubclass (UserClass name base) d = issubclass base d.
Proof.
  intros Hd. cbn [issubclass].
  rewrite bool_decide_eq_false_2; [done | congruence].
Qed.

(** A class has one chain of bases, so it cannot derive from two of the
    library's file classes. *)
Lemma issubclass_psf_exclusive (c : class) :
  issubclass c CharmmPsfFile = true →
  issubclass c PDBFile = false ∧ issubclass c AmberPrmtopFile = false.
Proof.
  induction c as [| | | | | | | | | | | | | | | | name base IH];
    try (cbn; discriminate); try (by cbn).
Qed.

Lemma issubclass_not_None (m : value) (d : class) :
  d ≠ NoneType → issubclass (type_of m) d = true → is_None m = false.
Proof.
  intros Hd. destruct m; try done. cbn.
  rewrite bool_decide_eq_false_2; [done | congruence].
Qed.

(** C3: [create_system] raises ValueError when the master is [None], when it
    is a PDBFile without a [forcefield] attribute, and when it is a
    CharmmPsfFile without a [parmset] attribute, whatever the options. *)
Theorem create_system_unusable (w : World) (self : SystemHandler.t)
    (system_options : option (gmap string value)) (msg : string) :
  unusable (SystemHandler.master self) msg →
  SystemHandler.create_system w self system_options = Raise (ValueError msg).
Proof.
  unfold SystemHandler.create_system.
  inversion 1 as [Hm | m Hcls Hattr Hm | m Hcls Hattr Hm]; subst.
  - done.
  - rewrite (issubclass_not_None _ PDBFile) by done.
    cbn [isinstance mbind res_bind]. by rewrite Hcls, Hattr.
  - rewrite (issubclass_not_None _ CharmmPsfFile) by done.
    destruct (issubclass_psf_exclusive _ Hcls) as [Hpdb Hprm].
    cbn [isinstance mbind res_bind]. by rewrite Hpdb, Hprm, Hcls, Hattr.
Qed.

(** A handler without a master can be built: all four fields are given. *)
Example init_without_master :
  SystemHandler.init VNone
    (<["topology" := sample_topology]>
     (<["positions" := VQuantity sample_coordinates angstroms]>
     (<["velocities" := VQuantity sample_coordinates angstroms_per_picosecond]>
     (<["box" := VQuantity (VList []) angstroms]> ∅))))
  = Ok restart_like.
Proof. reflexivity. Qed.

Lemma create_system_unusable_witness :
  SystemHandler.create_system sample_world restart_like None
    = Raise (ValueError SystemHandler.no_system)
  ∧ SystemHandler.create_system sample_world (with_master sample_pdb) None
    = Raise (ValueError SystemHandler.no_forcefield)
  ∧ SystemHandler.create_system sample_world (with_master sample_psf) (Some ∅)
    = Raise (ValueError SystemHandler.no_parmset).
Proof.
  split; [| split].
  - apply (create_system_unusable sample_world restart_like None). constructor.
  - apply (create_system_unusable sample_world (with_master sample_pdb) None).
    apply unusable_pdb; reflexivity.
  - apply (create_system_unusable sample_world (with_master sample_psf) (Some ∅)).
    apply unusable_psf; reflexivity.
Defined.

(** C10: with a master that is not [None] and is an instance of none of
    PDBFile, AmberPrmtopFile and CharmmPsfFile, [create_system] passes every
    branch and returns [None]. *)
Theorem create_system_falls_through (w : World) (self : SystemHandler.t)
    (system_options : option (gmap string value)) :
  is_None (SystemHandler.master self) = false →
  issubclass (type_of (SystemHandler.master self)) PDBFile = false →
  issubclass (type_of (SystemHandler.master self)) AmberPrmtopFile = false →
  issubclass (type_of (SystemHandler.master self)) CharmmPsfFile = false →
  SystemHandler.create_system w self system_options = Ok VNone.
Proof.
  intros Hnone Hpdb Hprm Hpsf. unfold SystemHandler.create_system.
  rewrite Hnone. cbn [isinstance mbind res_bind].
  by rewrite Hpdb, Hprm, Hpsf.
Qed.

Lemma create_system_falls_through_witness :
  SystemHandler.create_system sample_world (with_master (VStr "model.pdb")) None
    = Ok VNone.
Proof.
  apply (create_system_falls_through sample_world (with_master (VStr "model.pdb")) None);
    reflexivity.
Defined.

(** ** Results: random_string *)

Lemma load_global_choice :
  load_global "choice" = Raise (NameError "name 'choice' is not defined").
Proof. reflexivity. Qed.

Lemma seqZ_pos_cons (z : Z) : (0 < z)%Z → seqZ 0 z = 0%Z :: seqZ 1 (z - 1).
Proof. intros Hz. rewrite seqZ_cons by done. do 2 f_equal; lia. Qed.

Lemma seqZ_nonpos (z : Z) : (z ≤ 0)%Z → seqZ 0 z = [].
Proof. intros Hz. unfold seqZ. by replace (Z.to_nat z) with 0%nat by lia. Qed.

Lemma random_string_spec_default (w : World) :
  random_string w (VInt 5) = Raise (NameError "name 'choice' is not defined").
Proof. reflexivity. Qed.

(** C9, as amended: for an integer length of at least 1 the first element of
    the generator evaluates the name [choice], which is bound nowhere, and
    NameError is raised; for an integer length of 0 or less the generator is
    empty and the empty string is returned. *)
Theorem random_string_spec (w : World) (z : Z) :
  random_string w (VInt z) =
    if (0 <? z)%Z then Raise (NameError "name 'choice' is not defined")
    else Ok (VStr "").
Proof.
  unfold random_string, range. cbn [mbind res_bind].
  destruct (Z.ltb_spec 0 z) as [Hz | Hz].
  - by rewrite seqZ_pos_cons.
  - by rewrite seqZ_nonpos.
Qed.

Lemma random_string_default_NameError (w : World) :
  random_string_default w = Raise (NameError "name 'choice' is not defined").
Proof. unfold random_string_default. by rewrite random_string_spec_default. Qed.

(** C9 as stated fails: length 0 returns the empty string. *)
Lemma random_string_zero_counterexample :
  ¬ (∀ length : value, ∃ msg, random_string sample_world length = Raise (NameError msg)).
Proof.
  intros H. destruct (H (VInt 0)) as [msg Hmsg]. discriminate Hmsg.
Qed.

(** ** Results: the loaders that build a container *)

Lemma raises_bind_all {A B} (m : res A) (f : A → res B) :
  (∀ a, raises (f a)) → raises (m ≫= f).
Proof. intros Hf. destruct m; [apply Hf | exact I]. Qed.

Lemma raises_init (master : value) (kwargs : gmap string value) :
  raises (InputContainer_init kwargs) → raises (SystemHandler.init master kwargs).
Proof. apply raises_bind. Qed.

Lemma raises_init_None (kwargs : gmap string value) (name : string) :
  name ∈ ["topology"; "positions"; "velocities"; "box"] →
  kwarg kwargs name = VNone →
  raises (InputContainer_init kwargs).
Proof. intros Hin Hnone. by rewrite (InputContainer_init_None kwargs name). Qed.

Ltac bind_all :=
  repeat match goal with
         | |- raises (mbind _ _) => apply raises_bind_all; intros ?
         end.

(** C4: [from_rst] never returns a container, whatever the flags of the file
    say: the constructor is called without a topology, and assigning [None]
    to the topology raises (see C2).  The claim holds that the load does not
    raise and leaves absent fields [None]. *)
Theorem from_rst_never_returns (w : World) (path : string) :
  raises (Restart.from_rst w path).
Proof.
  unfold Restart.from_rst. bind_all.
  apply (raises_init_None _ "topology"); [set_solver | reflexivity].
Qed.

Example from_rst_sample :
  Restart.from_rst sample_world "run.rst" = Raise (TypeError isinstance_msg).
Proof. reflexivity. Qed.

Lemma from_xml_never_returns (w : World) (path : string) :
  raises (Restart.from_xml w path).
Proof.
  unfold Restart.from_xml. bind_all.
  apply (raises_init_None _ "topology"); [set_solver | reflexivity].
Qed.

(** The first half of C6: without parameters, a PSF file that parses is
    refused with ValueError. *)
Lemma from_psf_requires_parameters (w : World) (path : string) (psf : value) :
  new_CharmmPsfFile w path = Ok psf →
  SystemHandler.from_psf w path VNone
    = Raise (ValueError "ERROR: PSF files require charmm_parameters").
Proof. intros Hpsf. unfold SystemHandler.from_psf. by rewrite Hpsf. Qed.

(** C6: [from_psf] never returns a container.  Without parameters it raises
    the ValueError of the claim; with parameters it reaches the constructor,
    which is called without positions and raises TypeError (see C2), where the
    claim has the container returned with the parameter set attached. *)
Theorem from_psf_never_returns (w : World) (path : string) (charmm_parameters : value) :
  raises (SystemHandler.from_psf w path charmm_parameters).
Proof.
  unfold SystemHandler.from_psf. apply raises_bind_all; intros psf.
  destruct (is_None charmm_parameters); [exact I |].
  bind_all. apply raises_init.
  apply (raises_init_None _ "positions"); [set_solver | reflexivity].
Qed.

Example from_psf_sample :
  SystemHandler.from_psf sample_world "model.psf" (VList [VStr "par_all36.prm"])
    = Raise (TypeError isinstance_msg).
Proof. reflexivity. Qed.

Lemma from_prmtop_never_returns (w : World) (path : string) :
  raises (SystemHandler.from_prmtop w path).
Proof.
  unfold SystemHandler.from_prmtop. bind_all. apply raises_init.
  apply (raises_init_None _ "positions"); [set_solver | reflexivity].
Qed.

Lemma getattr_default_absent (obj : value) (name : string) (d : value) :
  hasattr obj name = false → getattr_default obj name d = d.
Proof.
  unfold hasattr, getattr_default, getattr. destruct obj; try done.
  destruct (assoc name attrs); [| done].
  intros H. apply bool_decide_eq_false in H. by destruct H.
Qed.

(** C7: on a PDBFile object without a [velocities] attribute, which is every
    object the library builds, [from_pdb] raises whatever the force fields:
    the constructor is given [velocities=None] (see C2).  The claim holds
    that the call with no force fields does not raise. *)
Theorem from_pdb_without_velocities_raises (w : World) (path : string)
    (forcefields : value) :
  (∀ pdb, new_PDBFile w path = Ok pdb → hasattr pdb "velocities" = false) →
  raises (SystemHandler.from_pdb w path forcefields).
Proof.
  intros Hvel. unfold SystemHandler.from_pdb.
  destruct (new_PDBFile w path) as [pdb |] eqn:Hpdb; [| exact I].
  cbn [mbind res_bind]. rewrite (getattr_default_absent pdb) by auto.
  bind_all. apply raises_init.
  apply (raises_init_None _ "velocities"); [set_solver | reflexivity].
Qed.

Lemma from_pdb_without_velocities_raises_witness :
  raises (SystemHandler.from_pdb sample_world "model.pdb" VNone).
Proof.
  apply (from_pdb_without_velocities_raises sample_world "model.pdb" VNone).
  intros pdb Hpdb. injection Hpdb as <-. reflexivity.
Defined.

Example from_pdb_sample :
  SystemHandler.from_pdb sample_world "model.pdb" VNone
    = Raise (TypeError isinstance_msg).
Proof. reflexivity. Qed.

(** The second half of C7: [process_forcefield] converts the names that end
    in [.frcmod] and passes the others through, in order. *)
Lemma process_forcefield_nil (w : World) : process_forcefield w [] = Ok [].
Proof. reflexivity. Qed.

Lemma process_forcefield_cons (w : World) (s : string) (rest : list value) :
  process_forcefield w (VStr s :: rest) =
    if str_endswith s ".frcmod"
    then (x ← create_ffxml_file w (VStr s);
          xs ← process_forcefield w rest; Ok (x :: xs))
    else (xs ← process_forcefield w rest; Ok (VStr s :: xs)).
Proof.
  unfold process_forcefield. cbn [mapM].
  by destruct (str_endswith s ".frcmod").
Qed.

Example process_forcefield_sample :
  process_forcefield sample_world [VStr "protein.xml"; VStr "ligand.frcmod"]
    = Ok [VStr "protein.xml"; VStr "ligand.frcmod.ffxml"].
Proof. reflexivity. Qed.

(** ** Results: the extension tables and load *)

Lemma str_getattr_lsplit (w : World) (ext : string) :
  str_getattr w ext "lsplit"
    = Raise (AttributeError "'str' object has no attribute 'lsplit'").
Proof. reflexivity. Qed.

(** The attribute [lsplit] that [load] asks of the extension does not exist on
    str, so [load] leaves by AttributeError before any table is consulted. *)
Lemma load_AttributeError (w : World) (cls : loader) (path : string)
    (kwargs : gmap string value) :
  MultiFormatLoader.load w cls path kwargs
    = Raise (AttributeError "'str' object has no attribute 'lsplit'").
Proof.
  unfold MultiFormatLoader.load. destruct (splitext path) as [name ext].
  by rewrite str_getattr_lsplit.
Qed.

Ltac table_miss :=
  cbn [MultiFormatLoader._loaders dict_getitem];
  unfold MultiFormatLoader.SystemHandler_table, MultiFormatLoader.Positions_table,
    MultiFormatLoader.Velocities_table, MultiFormatLoader.BoxVectors_table,
    MultiFormatLoader.Restart_table;
  rewrite ?lookup_insert_ne by congruence;
  rewrite lookup_empty.

(** C1, as amended: the table of each loader class is keyed by the exact
    lower-case extensions; a supported key selects its class method, and any
    other key, an upper-case spelling included, raises KeyError, which the
    handler of [load] turns into NotImplementedError naming the extension.
    No case folding takes place. *)
Theorem loaders_exact (cls : loader) (k : string) :
  cls ≠ cls_MultiFormatLoader →
  (∀ m, (k, m) ∈ supported cls →
        MultiFormatLoader._loaders cls (VStr k) = Ok m)
  ∧ (k ∉ (supported cls).*1 →
       MultiFormatLoader._loaders cls (VStr k) = Raise (KeyError k)
       ∧ ∀ ext path : string,
           MultiFormatLoader.load_except ext path
             (MultiFormatLoader._loaders cls (VStr k))
           = Raise (NotImplementedError ("Unknown loader for format " ++ ext))).
Proof.
  intros Hcls. split.
  - intros m Hin. destruct cls; try done; cbn [supported] in Hin;
      rewrite ?elem_of_cons, elem_of_nil in Hin;
      repeat (destruct Hin as [Hin | Hin]); try done; by simplify_eq.
  - intros Hout.
    assert (Hmiss : MultiFormatLoader._loaders cls (VStr k) = Raise (KeyError k)).
    { destruct cls; try done; cbn [supported fmap list_fmap fst] in Hout;
        rewrite ?not_elem_of_cons in Hout; destruct_and?; table_miss; done. }
    split; [done | intros ext path; by rewrite Hmiss].
Qed.

Lemma loaders_exact_witness :
  MultiFormatLoader._loaders cls_SystemHandler (VStr "pdb") = Ok SystemHandler_from_pdb
  ∧ MultiFormatLoader._loaders cls_SystemHandler (VStr "PDB") = Raise (KeyError "PDB")
  ∧ MultiFormatLoader.load_except ".PDB" "model.PDB"
      (MultiFormatLoader._loaders cls_SystemHandler (VStr "PDB"))
    = Raise (NotImplementedError "Unknown loader for format .PDB").
Proof.
  assert (Hcls : cls_SystemHandler ≠ cls_MultiFormatLoader) by discriminate.
  split; [| split].
  - apply (proj1 (loaders_exact cls_SystemHandler "pdb" Hcls)). set_solver.
  - apply (proj2 (loaders_exact cls_SystemHandler "PDB" Hcls)).
    cbn. rewrite !not_elem_of_cons. repeat split; try discriminate. apply not_elem_of_nil.
  - apply (proj2 (loaders_exact cls_SystemHandler "PDB" Hcls)).
    cbn. rewrite !not_elem_of_cons. repeat split; try discriminate. apply not_elem_of_nil.
Defined.

(** C1 as stated fails on the path [model.PDB]: the extension is not folded
    to lower case, the table of SystemHandler has no key [PDB], and [load]
    returns neither what [from_pdb] returns on the path nor a
    NotImplementedError. *)
Lemma load_case_counterexample :
  MultiFormatLoader._loaders cls_SystemHandler (VStr "PDB") = Raise (KeyError "PDB")
  ∧ MultiFormatLoader.load sample_world cls_SystemHandler "model.PDB" ∅
    ≠ MultiFormatLoader.load_except ".PDB" "model.PDB"
        (MultiFormatLoader.call sample_world SystemHandler_from_pdb "model.PDB" ∅)
  ∧ ∀ msg, MultiFormatLoader.load sample_world cls_SystemHandler "model.PDB" ∅
           ≠ Raise (NotImplementedError msg).
Proof.
  rewrite load_AttributeError. split; [reflexivity | split].
  - vm_compute. discriminate.
  - intros msg. discriminate.
Qed.

(** ** Results: assert_not_exists *)

Lemma list_ascii_of_string_app (s t : string) :
  String.list_ascii_of_string (s +:+ t)
    = (String.list_ascii_of_string s ++ String.list_ascii_of_string t)%list.
Proof. induction s as [| c s IH]; [done |]. simpl. by f_equal. Qed.

Lemma list_ascii_of_string_inj (s t : string) :
  String.list_ascii_of_string s = String.list_ascii_of_string t → s = t.
Proof.
  intros H. rewrite <- (String.string_of_list_ascii_of_string s),
    <- (String.string_of_list_ascii_of_string t). by rewrite H.
Qed.

Lemma string_app_inv_tail (s1 s2 t : string) : s1 +:+ t = s2 +:+ t → s1 = s2.
Proof.
  intros H. apply list_ascii_of_string_inj.
  apply (f_equal String.list_ascii_of_string) in H.
  rewrite !list_ascii_of_string_app in H. by apply app_inv_tail in H.
Qed.

Lemma numbered_inj (name ext : string) (i j : nat) :
  numbered name i ext = numbered name j ext → i = j.
Proof.
  unfold numbered. intros H.
  apply (inj (String.app name)) in H. apply (inj (String.app ".")) in H.
  apply string_app_inv_tail in H. by apply (inj pretty) in H.
Qed.

Section first_free.
Context (fs : gset string) (name ext path : string).
Local Open Scope nat_scope.

Local Abbreviation tried := (tried name ext path).

Lemma loop_reaches (fuel k j : nat) :
  k ≤ j → j < k + fuel →
  tried j ∉ fs →
  (∀ i, k ≤ i → i < j → tried i ∈ fs) →
  assert_not_exists_loop fuel fs name ext (tried k) (S k) = Some (tried j).
Proof.
  revert k. induction fuel as [| fuel IH]; intros k Hle Hlt Hfree Hbusy; [lia |].
  cbn [assert_not_exists_loop]. case_bool_decide as Hk.
  - assert (k ≠ j) by (intros ->; done).
    change (numbered name (S k) ext) with (tried (S k)).
    apply IH; [lia | lia | done |]. intros i ? ?. apply Hbusy; lia.
  - destruct (decide (k = j)) as [-> | Hne]; [done |].
    destruct Hk. apply Hbusy; lia.
Qed.

(** Pigeonhole: one of the first [size fs + 1] numbered names is free. *)
Lemma numbered_free : ∃ j, j < S (S (size fs)) ∧ (tried j ∉ fs).
Proof.
  set (l := (λ i, numbered name (S i) ext) <$> seq 0 (S (size fs))).
  destruct (decide (Forall (λ p, p ∈ fs) l)) as [Hall | Hsome].
  - assert (Hnd : NoDup l).
    { apply NoDup_fmap_2; [| apply NoDup_seq].
      intros i j Hij. apply numbered_inj in Hij. lia. }
    assert (Hsub : list_to_set (C := gset string) l ⊆ fs).
    { intros p Hp. rewrite elem_of_list_to_set in Hp.
      by apply (proj1 (Forall_forall _ _) Hall). }
    apply subseteq_size in Hsub. rewrite size_list_to_set in Hsub by done.
    unfold l in Hsub. rewrite length_fmap, length_seq in Hsub. lia.
  - apply not_Forall_Exists in Hsome; [| intros p; apply _].
    apply Exists_exists in Hsome as (p & Hp & Hfree).
    apply list_elem_of_fmap in Hp as (i & -> & Hi).
    apply elem_of_seq in Hi. exists (S i). split; [lia | done].
Qed.

Lemma least_free (n : nat) :
  (∀ i, i < n → tried i ∈ fs)
  ∨ ∃ j, j < n ∧ (tried j ∉ fs) ∧ (∀ i, i < j → tried i ∈ fs).
Proof.
  induction n as [| n [Hbusy | (j & Hj & Hfree & Hbusy)]].
  - left. lia.
  - destruct (decide (tried n ∈ fs)) as [Hn | Hn].
    + left. intros i Hi. destruct (decide (i = n)) as [-> | ]; [done |].
      apply Hbusy. lia.
    + right. exists n. split; [lia | done].
  - right. exists j. split; [lia | done].
Qed.

Lemma loop_first_free :
  ∃ j, (tried j ∉ fs) ∧ (∀ i, i < j → tried i ∈ fs)
     ∧ ∀ n, assert_not_exists_loop (S (S (size fs)) + n) fs name ext path 1
            = Some (tried j).
Proof.
  destruct (least_free (S (S (size fs)))) as [Hall | (j & Hj & Hfree & Hbusy)].
  { destruct numbered_free as (j & Hj & Hfree). destruct Hfree. by apply Hall. }
  exists j. split; [done | split; [done |]]. intros n.
  apply (loop_reaches _ 0 j); [lia | lia | done |].
  intros i _ Hi. by apply Hbusy.
Qed.
End first_free.

Lemma candidate_tried (path : string) (k : nat) :
  candidate path k = tried (splitext path).1 (splitext path).2 path k.
Proof. reflexivity. Qed.


Example assert_not_exists_free :
  assert_not_exists {["other.txt"]} "file.txt" = Some "file.txt".
Proof. vm_compute. reflexivity. Qed.

Example assert_not_exists_once :
  assert_not_exists {["file.txt"]} "file.txt" = Some "file.1.txt".
Proof. vm_compute. reflexivity. Qed.

Example assert_not_exists_twice :
  assert_not_exists {["file.txt"; "file.1.txt"]} "file.txt" = Some "file.2.txt".
Proof. vm_compute. reflexivity. Qed.

(** ** Results: BoxVectors.from_xsc *)

Lemma check_field_names_cons (seen : list string) (name : string) (rest : list string) :
  check_field_names seen (name :: rest) = Ok () →
  (name ∉ seen) ∧ check_field_names (name :: seen) rest = Ok ().
Proof.
  cbn [check_field_names].
  destruct (negb (isidentifier name) || bool_decide (name ∈ python_keywords)); [done |].
  destruct (startswith_underscore name); [done |].
  case_bool_decide; [done |]. by split.
Qed.

Lemma check_field_names_fresh (seen names : list string) (n : string) :
  check_field_names seen names = Ok () → n ∈ names → n ∉ seen.
Proof.
  revert seen. induction names as [| name rest IH]; intros seen Hok Hin.
  - by apply elem_of_nil in Hin.
  - apply check_field_names_cons in Hok as [Hname Hrest].
    apply elem_of_cons in Hin as [-> | Hin]; [done |].
    specialize (IH _ Hrest Hin). rewrite not_elem_of_cons in IH. tauto.
Qed.

(** Field names that pass the checks are distinct, so the value found under a
    name is the one at the position of the name. *)
Lemma assoc_zip_lookup (seen names : list string) (vals : list value)
    (i : nat) (n : string) (v : value) :
  check_field_names seen names = Ok () →
  names !! i = Some n → vals !! i = Some v →
  assoc n (zip names vals) = Some v.
Proof.
  revert seen vals i.
  induction names as [| name rest IH]; intros seen vals i Hok Hn Hv; [done |].
  destruct vals as [| v0 vals]; [by destruct i |].
  apply check_field_names_cons in Hok as [Hname Hrest].
  cbn [zip zip_with assoc]. destruct i as [| i].
  - injection Hn as ->. injection Hv as ->. by rewrite String.eqb_refl.
  - cbn in Hn, Hv.
    assert (Hne : name ≠ n).
    { intros ->. apply (check_field_names_fresh _ _ n Hrest).
      - by eapply list_elem_of_lookup_2.
      - apply elem_of_cons. by left. }
    apply String.eqb_neq in Hne. rewrite Hne. by eapply IH.
Qed.

(** C5: [from_xsc] reads the header at index 1 of the lines of the file and
    the values at index 2, names the numbers by position with the header
    fields that follow its first token, and returns the diagonal matrix of
    the numbers named [a_x], [b_y] and [c_z], in angstroms, with the integer
    0 off the diagonal. *)
Theorem from_xsc_diagonal (w : World) (path header values : string)
    (lines : list string) (numbers : list float64)
    (i j k : nat) (a_x b_y c_z : float64) :
  readlines w path = Ok lines →
  lines !! 1%nat = Some header →
  lines !! 2%nat = Some values →
  check_field_names [] (drop 1 (str_split header)) = Ok () →
  mapM (float_ w) (str_split values) = Ok numbers →
  length numbers = length (drop 1 (str_split header)) →
  drop 1 (str_split header) !! i = Some "a_x" → numbers !! i = Some a_x →
  drop 1 (str_split header) !! j = Some "b_y" → numbers !! j = Some b_y →
  drop 1 (str_split header) !! k = Some "c_z" → numbers !! k = Some c_z →
  BoxVectors.from_xsc w path
    = Ok (VQuantity (diagonal (VFloat a_x) (VFloat b_y) (VFloat c_z)) angstroms).
Proof.
  intros Hread Hheader Hvalues Hnames Hnumbers Hlen Hi Hxi Hj Hxj Hk Hxk.
  unfold BoxVectors.from_xsc, BoxVectors.parse, list_getitem, namedtuple,
    namedtuple_new.
  rewrite Hread. cbn [mbind res_bind]. rewrite Hheader. cbn [mbind res_bind].
  rewrite Hnames. cbn [mbind res_bind]. rewrite Hvalues. cbn [mbind res_bind].
  rewrite Hnumbers. cbn [mbind res_bind].
  rewrite length_fmap, Hlen, Nat.eqb_refl. cbn [mbind res_bind getattr].
  rewrite (assoc_zip_lookup [] _ (VFloat <$> numbers) i "a_x" (VFloat a_x) Hnames Hi)
    by (by rewrite list_lookup_fmap, Hxi).
  cbn [mbind res_bind].
  rewrite (assoc_zip_lookup [] _ (VFloat <$> numbers) j "b_y" (VFloat b_y) Hnames Hj)
    by (by rewrite list_lookup_fmap, Hxj).
  cbn [mbind res_bind].
  rewrite (assoc_zip_lookup [] _ (VFloat <$> numbers) k "c_z" (VFloat c_z) Hnames Hk)
    by (by rewrite list_lookup_fmap, Hxk).
  reflexivity.
Qed.

(** The record of the claim: fields [step a_x b_y c_z], values
    [0 10.0 20.0 30.0]. *)
Lemma from_xsc_diagonal_witness :
  drop 1 (str_split "#$LABELS step a_x b_y c_z") = ["step"; "a_x"; "b_y"; "c_z"]
  ∧ BoxVectors.from_xsc sample_world "box.xsc"
    = Ok (VQuantity (diagonal (VFloat f64_10) (VFloat f64_20) (VFloat f64_30)) angstroms).
Proof.
  split; [reflexivity |].
  apply (from_xsc_diagonal sample_world "box.xsc"
           ("#$LABELS step a_x b_y c_z" +:+ String "010" "")
           ("0 10.0 20.0 30.0" +:+ String "010" "")
           sample_xsc [f64_0; f64_10; f64_20; f64_30] 1 2 3);
    reflexivity.
Defined.

(** ** Further results: the container *)

Lemma set_field_outcome_aux (f : field) (obj : value) (self : InputContainer) :
  if issubclass (type_of obj) (expected_class f)
  then (set_field f obj self).1 = Ok ()
       ∧ get_field f (set_field f obj self).2 = obj
       ∧ Forall (λ g, g = f ∨ get_field g (set_field f obj self).2 = get_field g self)
                [f_topology; f_positions; f_velocities; f_box]
  else set_field f obj self = (Raise (TypeError isinstance_msg), self).
Proof.
  destruct f; cbn [set_field expected_class];
    rewrite ?set_topology_spec, ?set_positions_spec, ?set_velocities_spec, ?set_box_spec;
    match goal with |- context [issubclass ?a ?b] => destruct (issubclass a b) end;
    try done; cbn [fst snd get_field _topology _positions _velocities _box];
    (split; [done | split; [done |]]);
    repeat (apply Forall_cons; split; [(by left) || (by right) |]);
    by apply Forall_nil.
Qed.

(** Whether an assignment succeeds depends on the class of the object alone;
    a successful one stores the object in its field and touches no other
    field, a failed one raises TypeError and leaves the container as it was. *)
Theorem set_field_outcome (f : field) (obj : value) (self : InputContainer) :
  if issubclass (type_of obj) (expected_class f)
  then (set_field f obj self).1 = Ok ()
       ∧ get_field f (set_field f obj self).2 = obj
       ∧ Forall (λ g, g = f ∨ get_field g (set_field f obj self).2 = get_field g self)
                [f_topology; f_positions; f_velocities; f_box]
  else set_field f obj self = (Raise (TypeError isinstance_msg), self).
Proof. apply set_field_outcome_aux. Qed.

Lemma set_field_field_ok (f g : field) (obj : value) (self : InputContainer) :
  field_ok g self → field_ok g (set_field f obj self).2.
Proof.
  intros Hg. pose proof (set_field_outcome_aux f obj self) as H.
  destruct (issubclass (type_of obj) (expected_class f)) eqn:Hcls.
  - destruct H as (_ & Hf & Hothers).
    destruct (decide (g = f)) as [-> | Hne].
    + right. by rewrite Hf.
    + assert (Hin : g ∈ [f_topology; f_positions; f_velocities; f_box])
        by (destruct g; set_solver).
      destruct (proj1 (Forall_forall _ _) Hothers g Hin) as [-> | Heq]; [done |].
      unfold field_ok. by rewrite Heq.
  - by rewrite H.
Qed.

(** The invariant of the container: from the blank object of [__init__], any
    run of assignments, failed ones included, leaves every field either
    [None] or an instance of the class of the field. *)
Theorem run_assignments_well_typed (ops : list (field * value)) :
  well_typed (run_assignments ops blank).
Proof.
  assert (Hgen : ∀ self, well_typed self → well_typed (run_assignments ops self)).
  { induction ops as [| [f obj] ops IH]; intros self Hself; [done |].
    cbn [run_assignments]. apply IH. intros g. apply set_field_field_ok, Hself. }
  apply Hgen. intros f. left. by destruct f.
Qed.

Lemma has_field_not_None (f : field) (self : InputContainer) :
  has_field f self = negb (is_None (get_field f self)).
Proof. by destruct f. Qed.

Lemma set_field_keeps_presence (f g : field) (obj : value) (self : InputContainer) :
  has_field g self = true → has_field g (set_field f obj self).2 = true.
Proof.
  intros Hg. pose proof (set_field_outcome_aux f obj self) as H.
  destruct (issubclass (type_of obj) (expected_class f)) eqn:Hcls.
  - destruct H as (_ & Hf & Hothers).
    destruct (decide (g = f)) as [-> | Hne].
    + rewrite has_field_not_None, Hf.
      destruct obj; try done. by destruct f.
    + assert (Hin : g ∈ [f_topology; f_positions; f_velocities; f_box])
        by (destruct g; set_solver).
      destruct (proj1 (Forall_forall _ _) Hothers g Hin) as [-> | Heq]; [done |].
      rewrite has_field_not_None in *. by rewrite Heq.
  - by rewrite H.
Qed.

(** A field that is present stays present: no run of assignments can bring
    it back to [None], since the setters refuse [None]. *)
Theorem presence_is_permanent (g : field) (ops : list (field * value))
    (self : InputContainer) :
  has_field g self = true →
  has_field g (run_assignments ops self) = true.
Proof.
  revert self. induction ops as [| [f obj] ops IH]; intros self Hg; [done |].
  cbn [run_assignments]. by apply IH, set_field_keeps_presence.
Qed.

Lemma presence_is_permanent_witness :
  has_field f_box
    (run_assignments [(f_box, VNone); (f_topology, VInt 1); (f_box, sample_box)]
       (SystemHandler.container restart_like)) = true.
Proof.
  apply (presence_is_permanent f_box
           [(f_box, VNone); (f_topology, VInt 1); (f_box, sample_box)]
           (SystemHandler.container restart_like)).
  reflexivity.
Defined.

(** A container that the constructor returns has all four fields present,
    each an instance of its class, and holds the keyword values given. *)
Theorem init_all_present (kwargs : gmap string value) (c : InputContainer) :
  InputContainer_init kwargs = Ok c →
  Forall (λ f, has_field f c = true
               ∧ issubclass (type_of (get_field f c)) (expected_class f) = true)
         [f_topology; f_positions; f_velocities; f_box]
  ∧ c = mkInputContainer (kwarg kwargs "topology") (kwarg kwargs "positions")
                         (kwarg kwargs "velocities") (kwarg kwargs "box").
Proof.
  rewrite InputContainer_init_spec.
  destruct (issubclass (type_of (kwarg kwargs "topology")) Topology) eqn:Ht; [| done].
  destruct (issubclass (type_of (kwarg kwargs "positions")) Quantity) eqn:Hp; [| done].
  destruct (issubclass (type_of (kwarg kwargs "velocities")) Quantity) eqn:Hv; [| done].
  destruct (issubclass (type_of (kwarg kwargs "box")) Quantity) eqn:Hb; [| done].
  cbn [andb]. intros [= <-]. split; [| done].
  assert (Hpresent : ∀ v d, d ≠ NoneType → issubclass (type_of v) d = true →
                            negb (is_None v) = true).
  { intros v d Hd Hv'. by rewrite (issubclass_not_None v d). }
  repeat constructor; cbn; try done; eapply Hpresent; try eassumption; discriminate.
Qed.

Lemma init_all_present_witness :
  has_field f_velocities (SystemHandler.container restart_like) = true.
Proof.
  pose proof (init_all_present
    (<["topology" := sample_topology]>
     (<["positions" := VQuantity sample_coordinates angstroms]>
     (<["velocities" := VQuantity sample_coordinates angstroms_per_picosecond]>
     (<["box" := VQuantity (VList []) angstroms]> ∅))))
    (SystemHandler.container restart_like) eq_refl) as [Hall _].
  apply (proj1 (Forall_forall _ _) Hall f_velocities). set_solver.
Defined.

(** ** Further results: validate *)



Lemma isinstance_classes (obj : value) (cs : list class) :
  isinstance obj (VTuple (VClass <$> cs)) = Ok (existsb (issubclass (type_of obj)) cs).
Proof.
  cbn [isinstance]. induction cs as [| c cs IH]; [done |].
  cbn [fmap list_fmap existsb isinstance].
  destruct (issubclass (type_of obj) c); [done |]. exact IH.
Qed.

(** With a tuple of classes as second argument, [validate] accepts exactly
    the instances of one of the classes and refuses the rest by its own
    TypeError; in particular [type(None)] in the tuple accepts [None]. *)
Theorem validate_classes (object_ : value) (cs : list class) :
  validate object_ (VTuple (VClass <$> cs)) =
    if existsb (issubclass (type_of object_)) cs then Ok object_
    else Raise (TypeError "object must be instance of type").
Proof.
  unfold validate. rewrite isinstance_classes. cbn.
  by destruct (existsb (issubclass (type_of object_)) cs).
Qed.

(** ** Further results: load *)

(** [load] returns nothing and reaches no table and no handler: for every
    loader class, path and keywords it raises AttributeError at
    [ext.lsplit], which neither [except] clause catches; so it raises
    neither NotImplementedError for an unknown extension nor IOError for a
    missing file. *)
Theorem load_never_dispatches (w : World) (cls : loader) (path : string)
    (kwargs : gmap string value) :
  MultiFormatLoader.load w cls path kwargs
    = Raise (AttributeError "'str' object has no attribute 'lsplit'").
Proof. apply load_AttributeError. Qed.

(** ** Further results: SystemHandler *)

Lemma init_Ok (master : value) (kwargs : gmap string value) (s : SystemHandler.t) :
  SystemHandler.init master kwargs = Ok s →
  InputContainer_init kwargs = Ok (SystemHandler.container s)
  ∧ SystemHandler.master s = master
  ∧ SystemHandler._path s = kwarg kwargs "path".
Proof.
  unfold SystemHandler.init.
  destruct (InputContainer_init kwargs) as [c |]; [| done].
  cbn. by intros [= <-].
Qed.

Lemma bind_Ok {A B} (m : res A) (f : A → res B) (b : B) :
  m ≫= f = Ok b → ∃ a, m = Ok a ∧ f a = Ok b.
Proof. destruct m as [a |]; [| done]. intros H. by exists a. Qed.

Lemma setattr_Ok (obj : value) (name : string) (v obj' : value) :
  setattr obj name v = Ok obj' →
  type_of obj' = type_of obj
  ∧ hasattr obj' name = true
  ∧ getattr obj' name = Ok v.
Proof.
  destruct obj; try done. intros [= <-].
  unfold hasattr, getattr. cbn [assoc type_of]. by rewrite String.eqb_refl.
Qed.

(** When [from_pdb] does return a handler, the handler can create systems:
    its master carries the force field built from the processed files, and
    [create_system] hands that force field the topology of the handler and
    the options, [None] standing for no options. *)
Theorem from_pdb_then_create_system (w : World) (path : string) (forcefields : value)
    (s : SystemHandler.t) (system_options : option (gmap string value)) :
  (∀ pdb, new_PDBFile w path = Ok pdb → type_of pdb = PDBFile) →
  SystemHandler.from_pdb w path forcefields = Ok s →
  ∃ ff, getattr (SystemHandler.master s) "forcefield" = Ok ff
      ∧ SystemHandler._path s = VStr path
      ∧ SystemHandler.create_system w s system_options
        = ForceField_createSystem w ff (_topology (SystemHandler.container s))
            (default ∅ system_options).
Proof.
  intros Hcls. unfold SystemHandler.from_pdb. intros H.
  apply bind_Ok in H as (pdb & Hpdb & H).
  apply bind_Ok in H as (topology & _ & H).
  apply bind_Ok in H as (box & _ & H).
  apply bind_Ok in H as (positions & _ & H).
  apply bind_Ok in H as (ffs & _ & H).
  apply bind_Ok in H as (args & _ & H).
  apply bind_Ok in H as (files & _ & H).
  apply bind_Ok in H as (ff & _ & H).
  apply bind_Ok in H as (pdb' & Hset & H).
  apply bind_Ok in H as (topology' & _ & H).
  apply init_Ok in H as (_ & Hmaster & Hpath).
  apply setattr_Ok in Hset as (Htype & Hhas & Hget).
  exists ff. rewrite Hmaster. split; [done | split; [by rewrite Hpath |]].
  unfold SystemHandler.create_system. rewrite Hmaster.
  assert (Hpdbcls : type_of pdb' = PDBFile) by (rewrite Htype; by apply Hcls).
  rewrite (issubclass_not_None pdb' PDBFile) by (by rewrite ?Hpdbcls).
  cbn [isinstance mbind res_bind]. rewrite Hpdbcls. cbn [issubclass].
  rewrite bool_decide_eq_true_2 by done. cbn [orb].
  by rewrite Hhas, Hget.
Qed.

Lemma from_pdb_then_create_system_witness :
  ∃ s, SystemHandler.from_pdb sample_world_full "full.pdb" VNone = Ok s
     ∧ ∃ system,
         SystemHandler.create_system sample_world_full s None = Ok system.
Proof.
  destruct (SystemHandler.from_pdb sample_world_full "full.pdb" VNone) as [s |] eqn:Hs;
    [| by vm_compute in Hs].
  exists s. split; [done |].
  destruct (from_pdb_then_create_system sample_world_full "full.pdb" VNone s None)
    as (ff & _ & _ & Hcreate); [| done |].
  - intros pdb Hpdb. injection Hpdb as <-. reflexivity.
  - rewrite Hcreate. by eexists.
Defined.

(** [from_prmtop] never returns a handler: its constructor call names neither
    positions, velocities nor box, and the first of them to be assigned
    [None] raises. *)
Theorem from_prmtop_raises (w : World) (path : string) :
  raises (SystemHandler.from_prmtop w path).
Proof. apply from_prmtop_never_returns. Qed.

(** [from_xml] never returns a container, even when the serialized state
    holds positions, velocities and box: the topology is not given. *)
Theorem from_xml_raises (w : World) (path : string) :
  raises (Restart.from_xml w path).
Proof. apply from_xml_never_returns. Qed.

(** ** Further results: create_system *)

Lemma issubclass_pdb_exclusive (c : class) :
  issubclass c PDBFile = true →
  issubclass c AmberPrmtopFile = false ∧ issubclass c CharmmPsfFile = false.
Proof.
  induction c as [| | | | | | | | | | | | | | | | name base IH];
    try (cbn; discriminate); try (by cbn).
Qed.

Lemma issubclass_prmtop_exclusive (c : class) :
  issubclass c AmberPrmtopFile = true →
  issubclass c PDBFile = false ∧ issubclass c CharmmPsfFile = false.
Proof.
  induction c as [| | | | | | | | | | | | | | | | name base IH];
    try (cbn; discriminate); try (by cbn).
Qed.

(** A master that is an instance of AmberPrmtopFile, of a subclass too, needs
    no attribute: [create_system] calls its [createSystem] with the options
    and nothing else. *)
Theorem create_system_prmtop (w : World) (self : SystemHandler.t)
    (system_options : option (gmap string value)) :
  issubclass (type_of (SystemHandler.master self)) AmberPrmtopFile = true →
  SystemHandler.create_system w self system_options
    = AmberPrmtopFile_createSystem w (SystemHandler.master self)
        (default ∅ system_options).
Proof.
  intros Hcls. unfold SystemHandler.create_system.
  rewrite (issubclass_not_None _ AmberPrmtopFile) by done.
  destruct (issubclass_prmtop_exclusive _ Hcls) as [Hpdb _].
  cbn [isinstance mbind res_bind]. by rewrite Hpdb, Hcls.
Qed.

Lemma create_system_prmtop_witness :
  SystemHandler.create_system sample_world
    (with_master (VObject (UserClass "MyPrmtop" AmberPrmtopFile) [])) None
  = Raise (LibraryError "no parameters").
Proof.
  apply (create_system_prmtop sample_world
           (with_master (VObject (UserClass "MyPrmtop" AmberPrmtopFile) [])) None).
  reflexivity.
Defined.

(** A PSF master with a parameter set: [create_system] passes the set and the
    options to [createSystem] of the master. *)
Theorem create_system_psf (w : World) (self : SystemHandler.t)
    (system_options : option (gmap string value)) (parmset : value) :
  issubclass (type_of (SystemHandler.master self)) CharmmPsfFile = true →
  getattr (SystemHandler.master self) "parmset" = Ok parmset →
  SystemHandler.create_system w self system_options
    = CharmmPsfFile_createSystem w (SystemHandler.master self) parmset
        (default ∅ system_options).
Proof.
  intros Hcls Hget. unfold SystemHandler.create_system.
  rewrite (issubclass_not_None _ CharmmPsfFile) by done.
  destruct (issubclass_psf_exclusive _ Hcls) as [Hpdb Hprm].
  cbn [isinstance mbind res_bind]. rewrite Hpdb, Hprm, Hcls.
  assert (Hhas : hasattr (SystemHandler.master self) "parmset" = true).
  { unfold hasattr, getattr in *. destruct (SystemHandler.master self); try done.
    destruct (assoc "parmset" attrs); [| done]. by apply bool_decide_eq_true_2. }
  by rewrite Hhas, Hget.
Qed.

Lemma create_system_psf_witness :
  SystemHandler.create_system sample_world
    (with_master (VObject CharmmPsfFile [("parmset", VInt 1)])) None
  = Raise (LibraryError "no parameters").
Proof.
  apply (create_system_psf sample_world
           (with_master (VObject CharmmPsfFile [("parmset", VInt 1)])) None (VInt 1));
    reflexivity.
Defined.

(** ** Further results: process_forcefield *)

Lemma process_forcefield_Ok_aux (w : World) (names : list string) (out : list value) :
  process_forcefield w (VStr <$> names) = Ok out ↔ Forall2 (converted w) names out.
Proof.
  revert out. induction names as [| name names IH]; intros out.
  - cbn. split; [intros [= <-]; constructor | by inversion 1].
  - cbn [fmap list_fmap]. rewrite process_forcefield_cons. unfold converted at 1.
    split.
    + destruct (str_endswith name ".frcmod") eqn:Hend.
      * intros H. apply bind_Ok in H as (x & Hx & H).
        apply bind_Ok in H as (xs & Hxs & [= <-]).
        constructor; [unfold converted; by rewrite Hend | by apply IH].
      * intros H. apply bind_Ok in H as (xs & Hxs & [= <-]).
        constructor; [unfold converted; by rewrite Hend | by apply IH].
    + inversion 1 as [| ? o ? os Ho Hos]; subst. apply IH in Hos.
      unfold converted in Ho. destruct (str_endswith name ".frcmod").
      * by rewrite Ho, Hos.
      * subst o. by rewrite Hos.
Qed.

(** [process_forcefield] returns a list exactly when every [.frcmod] name
    converts; the list then has one entry for each name, in order: the
    converted file for a [.frcmod] name, the name itself for any other. *)
Theorem process_forcefield_Ok (w : World) (names : list string) (out : list value) :
  process_forcefield w (VStr <$> names) = Ok out ↔ Forall2 (converted w) names out.
Proof. apply process_forcefield_Ok_aux. Qed.

(** A list without [.frcmod] names comes back unchanged, whatever the
    converter would do. *)
Theorem process_forcefield_plain (w : World) (names : list string) :
  forallb (λ name, negb (str_endswith name ".frcmod")) names = true →
  process_forcefield w (VStr <$> names) = Ok (VStr <$> names).
Proof.
  intros Hplain. apply process_forcefield_Ok_aux.
  induction names as [| name names IH]; [constructor |].
  cbn in Hplain. apply andb_true_iff in Hplain as [Hname Hrest].
  cbn [fmap list_fmap]. constructor; [| by apply IH].
  unfold converted. by destruct (str_endswith name ".frcmod").
Qed.

Lemma process_forcefield_plain_witness :
  process_forcefield sample_world (VStr <$> ["amber99sbildn.xml"; "tip3p.xml"])
    = Ok (VStr <$> ["amber99sbildn.xml"; "tip3p.xml"]).
Proof.
  apply (process_forcefield_plain sample_world ["amber99sbildn.xml"; "tip3p.xml"]).
  reflexivity.
Defined.

(** An entry that is [None], a bool, an int, a float, a list or a tuple has
    no [endswith]: it stops the generator with AttributeError once the names
    before it have been processed, whatever follows it. *)
Theorem process_forcefield_not_str (w : World) (names : list string)
    (bad : value) (rest : list value) (out : list value) :
  process_forcefield w (VStr <$> names) = Ok out →
  lacks_endswith bad = true →
  process_forcefield w ((VStr <$> names) ++ bad :: rest)
    = Raise (AttributeError "endswith").
Proof.
  intros Hout Hbad. revert out Hout.
  induction names as [| name names IH]; intros out Hout.
  - cbn. by destruct bad.
  - cbn [fmap list_fmap app] in *. rewrite process_forcefield_cons in *.
    destruct (str_endswith name ".frcmod").
    + apply bind_Ok in Hout as (x & Hx & Hout).
      apply bind_Ok in Hout as (xs & Hxs & _).
      rewrite Hx. cbn [mbind res_bind]. by rewrite (IH xs).
    + apply bind_Ok in Hout as (xs & Hxs & _). by rewrite (IH xs).
Qed.

Lemma process_forcefield_not_str_witness :
  process_forcefield sample_world [VStr "lig.frcmod"; VNone; VStr "tip3p.xml"]
    = Raise (AttributeError "endswith").
Proof.
  apply (process_forcefield_not_str sample_world ["lig.frcmod"] VNone
           [VStr "tip3p.xml"] [VStr "lig.frcmod.ffxml"]); reflexivity.
Defined.

(** ** Further results: BoxVectors.from_xsc and the array loaders *)

Lemma mapM_res_length {A B} (f : A → res B) (l : list A) (k : list B) :
  mapM f l = Ok k → length k = length l.
Proof.
  revert k. induction l as [| x l IH]; intros k; cbn [mapM].
  - by intros [= <-].
  - intros H. apply bind_Ok in H as (y & _ & H).
    apply bind_Ok in H as (ys & Hys & [= <-]). cbn. f_equal. by apply IH.
Qed.

Lemma assoc_zip_VFloat (names : list string) (numbers : list float64)
    (n : string) (v : value) :
  assoc n (zip names (VFloat <$> numbers)) = Some v → ∃ x, v = VFloat x.
Proof.
  revert numbers. induction names as [| name names IH]; intros numbers; [done |].
  destruct numbers as [| x numbers]; [done |].
  cbn [fmap list_fmap zip zip_with assoc].
  destruct (String.eqb name n); [intros [= <-]; by eexists | apply IH].
Qed.

Lemma getattr_Ok_assoc (c : class) (attrs : list (string * value)) (n : string) (v : value) :
  getattr (VObject c attrs) n = Ok v → assoc n attrs = Some v.
Proof. unfold getattr. destruct (assoc n attrs); [by intros [= <-] | done]. Qed.

Lemma from_xsc_shape_aux (w : World) (path : string) (v : value) :
  BoxVectors.from_xsc w path = Ok v →
  ∃ a b c, v = VQuantity (diagonal (VFloat a) (VFloat b) (VFloat c)) angstroms.
Proof.
  unfold BoxVectors.from_xsc, BoxVectors.parse, namedtuple, namedtuple_new.
  intros H.
  apply bind_Ok in H as (xsc & Hxsc & H).
  apply bind_Ok in Hxsc as (lines & _ & Hxsc).
  apply bind_Ok in Hxsc as (header & _ & Hxsc).
  apply bind_Ok in Hxsc as (fields & Hfields & Hxsc).
  apply bind_Ok in Hfields as (_ & _ & [= <-]).
  apply bind_Ok in Hxsc as (values & _ & Hxsc).
  apply bind_Ok in Hxsc as (numbers & _ & Hxsc).
  destruct (_ =? _)%nat; [| done]. injection Hxsc as <-.
  apply bind_Ok in H as (a & Ha & H).
  apply bind_Ok in H as (b & Hb & H).
  apply bind_Ok in H as (c & Hc & [= <-]).
  apply getattr_Ok_assoc, assoc_zip_VFloat in Ha as [xa ->].
  apply getattr_Ok_assoc, assoc_zip_VFloat in Hb as [xb ->].
  apply getattr_Ok_assoc, assoc_zip_VFloat in Hc as [xc ->].
  by exists xa, xb, xc.
Qed.

(** Whatever the file holds, a value that [from_xsc] returns is a diagonal
    matrix of three floats in angstroms, with the integer 0 off the diagonal:
    no other shape, unit or entry comes out. *)
Theorem from_xsc_shape (w : World) (path : string) (v : value) :
  BoxVectors.from_xsc w path = Ok v →
  ∃ a b c, v = VQuantity (diagonal (VFloat a) (VFloat b) (VFloat c)) angstroms.
Proof. apply from_xsc_shape_aux. Qed.

Lemma from_xsc_shape_witness :
  ∃ v, BoxVectors.from_xsc sample_world "box.xsc" = Ok v
     ∧ ∃ a b c, v = VQuantity (diagonal (VFloat a) (VFloat b) (VFloat c)) angstroms.
Proof.
  eexists. split; [reflexivity |].
  apply (from_xsc_shape sample_world "box.xsc"). reflexivity.
Defined.

(** A file of fewer than three lines gives no box: [from_xsc] raises
    IndexError, or ValueError when the second line names an invalid field. *)
Theorem from_xsc_short_file (w : World) (path : string) (lines : list string) :
  readlines w path = Ok lines →
  length lines < 3 →
  ∃ msg, BoxVectors.from_xsc w path = Raise (IndexError msg)
       ∨ BoxVectors.from_xsc w path = Raise (ValueError msg).
Proof.
  intros Hread Hlen.
  unfold BoxVectors.from_xsc, BoxVectors.parse, namedtuple, list_getitem.
  rewrite Hread. cbn [mbind res_bind].
  destruct lines as [| l0 [| l1 [| l2 lines]]]; cbn in Hlen; try lia.
  - eexists. by left.
  - eexists. by left.
  - cbn [lookup list_lookup mbind res_bind].
    destruct (check_field_names [] (drop 1 (str_split l1))) as [[] | e] eqn:Hcheck.
    + eexists. by left.
    + cbn [mbind res_bind].
      assert (He : ∃ msg, e = ValueError msg).
      { clear -Hcheck. revert Hcheck. generalize (@nil string).
        induction (drop 1 (str_split l1)) as [| name names IH]; intros seen; [done |].
        cbn [check_field_names].
        repeat match goal with
               | |- context [if ?b then _ else _] => destruct b
               end; try (intros [= <-]; by eexists). apply IH. }
      destruct He as [msg ->]. eexists. by right.
Qed.

Lemma from_xsc_short_file_witness :
  ∃ msg, BoxVectors.from_xsc two_line_world "two.xsc" = Raise (IndexError msg)
       ∨ BoxVectors.from_xsc two_line_world "two.xsc" = Raise (ValueError msg).
Proof.
  apply (from_xsc_short_file two_line_world "two.xsc"
           ["step a_x b_y c_z"; "0 10.0 20.0 30.0"]); [reflexivity | cbn; lia].
Defined.

(** Whatever [from_coor], [from_vel] and [from_xsc] return is accepted by the
    container as positions, velocities and box: the three loaders build a
    Quantity themselves. *)
Theorem loaded_quantity_accepted (w : World) (path : string) (q : value)
    (self : InputContainer) :
  (Positions.from_coor w path = Ok q → (set_positions q self).1 = Ok ())
  ∧ (Velocities.from_vel w path = Ok q → (set_velocities q self).1 = Ok ())
  ∧ (BoxVectors.from_xsc w path = Ok q → (set_box q self).1 = Ok ()).
Proof.
  split; [| split].
  - unfold Positions.from_coor. intros H.
    apply bind_Ok in H as (? & _ & H). apply bind_Ok in H as (? & _ & H).
    apply bind_Ok in H as (? & _ & [= <-]). by rewrite set_positions_spec.
  - unfold Velocities.from_vel. intros H.
    apply bind_Ok in H as (? & _ & H). apply bind_Ok in H as (? & _ & H).
    apply bind_Ok in H as (? & _ & [= <-]). by rewrite set_velocities_spec.
  - intros H. apply from_xsc_shape_aux in H as (a & b & c & ->).
    by rewrite set_box_spec.
Qed.

Lemma loaded_quantity_accepted_witness :
  (set_positions (VQuantity sample_coordinates angstroms) blank).1 = Ok ()
  ∧ (set_box (VQuantity (diagonal (VFloat f64_10) (VFloat f64_20) (VFloat f64_30))
                 angstroms) blank).1 = Ok ().
Proof.
  split.
  - apply (proj1 (loaded_quantity_accepted sample_world_full "run.coor"
                    (VQuantity sample_coordinates angstroms) blank)).
    reflexivity.
  - apply (proj2 (proj2 (loaded_quantity_accepted sample_world "box.xsc"
       (VQuantity (diagonal (VFloat f64_10) (VFloat f64_20) (VFloat f64_30)) angstroms)
       blank))).
    reflexivity.
Defined.

(** ** Further results: splitext and assert_not_exists *)

Local Open Scope nat_scope.

Lemma rfind_from_spec (c : ascii) (s : string) (i last : Z) :
  (last < i)%Z →
  (rfind_from c s i last = last ∧ ∀ j, String.get j s ≠ Some c)
  ∨ ((i ≤ rfind_from c s i last < i + Z.of_nat (String.length s))%Z
     ∧ String.get (Z.to_nat (rfind_from c s i last - i)) s = Some c
     ∧ ∀ j, (rfind_from c s i last - i < Z.of_nat j)%Z → String.get j s ≠ Some c).
Proof.
  revert i last. induction s as [| a s IH]; intros i last Hlast.
  - left. by split.
  - cbn [rfind_from String.length].
    set (last' := if Ascii.eqb a c then i else last).
    assert (Hlast' : (last' < i + 1)%Z) by (unfold last'; destruct (Ascii.eqb a c); lia).
    destruct (IH (i + 1)%Z last' Hlast') as [[Hr Hnone] | (Hrange & Hget & Hafter)].
    + rewrite Hr. unfold last'. destruct (Ascii.eqb_spec a c) as [-> | Hne].
      * right. split; [lia |]. replace (i - i)%Z with 0%Z by lia.
        split; [done |]. intros [| j] ?; [lia |]. apply Hnone.
      * left. split; [done |]. intros [| j]; [cbn; congruence | apply Hnone].
    + right. split; [lia |]. split.
      * replace (Z.to_nat (rfind_from c s (i + 1) last' - i))
          with (S (Z.to_nat (rfind_from c s (i + 1) last' - (i + 1)))) by lia.
        exact Hget.
      * intros [| j] Hj; [lia |]. cbn [String.get]. apply Hafter. lia.
Qed.

Lemma string_app_cons (c : ascii) (s t : string) :
  String c s +:+ t = String c (s +:+ t).
Proof. reflexivity. Qed.

Lemma substring_all (s : string) : String.substring 0 (String.length s) s = s.
Proof. induction s as [| c s IH]; [done |]. cbn. by rewrite IH. Qed.

Lemma substring_split (s : string) (n : nat) :
  n ≤ String.length s →
  String.substring 0 n s +:+ String.substring n (String.length s - n) s = s.
Proof.
  revert n. induction s as [| c s IH]; intros n Hn.
  - by destruct n.
  - destruct n as [| n].
    + cbn [String.substring]. cbn. by rewrite substring_all.
    + cbn [String.substring String.length]. cbn in Hn.
      replace (S (String.length s) - S n) with (String.length s - n) by lia.
      rewrite string_app_cons. f_equal. apply IH. lia.
Qed.

Lemma string_app_nil_r (s : string) : s +:+ "" = s.
Proof. induction s as [| c s IH]; [done |]. rewrite string_app_cons. by f_equal. Qed.

(** What [os.path.splitext] returns, as [assert_not_exists] and [load] use
    it: the two parts make up the path again, and the extension is empty or
    begins with a dot and holds no slash. *)
Lemma splitext_parts (path : string) :
  (splitext path).1 +:+ (splitext path).2 = path
  ∧ ((splitext path).2 = ""
     ∨ (∃ rest, (splitext path).2 = String "." rest)
       ∧ ∀ j, String.get j (splitext path).2 ≠ Some "/"%char).
Proof.
  unfold splitext.
  destruct (rfind_from_spec "/" path 0 (-1)) as [[Hsep Hnosep] | (Hsep & _ & Haftersep)];
    [lia | |];
  (destruct (rfind_from_spec "." path 0 (-1)) as [[Hdot _] | (Hdot & Hgetdot & _)];
    [lia | |]);
  fold (rfind "/" path) in *; fold (rfind "." path) in *;
  destruct ((rfind "/" path <? rfind "." path)%Z && _) eqn:Hcond;
    cbn [fst snd]; try (split; [apply string_app_nil_r | by left]);
  apply andb_true_iff in Hcond as [Hlt _]; apply Z.ltb_lt in Hlt; try lia;
  (split; [apply substring_split; lia | right]);
  rewrite Z.sub_0_r in Hgetdot;
  set (d := Z.to_nat (rfind "." path)) in *;
  assert (Hd : d < String.length path) by lia;
  (assert (Hget0 : String.get 0 (String.substring d (String.length path - d) path)
                   = Some "."%char)
     by (rewrite String.substring_correct1 by lia; exact Hgetdot));
  (split;
   [ destruct (String.substring d (String.length path - d) path) as [| a rest];
       [done | injection Hget0 as ->; by eexists]
   | intros j; destruct (decide (j < String.length path - d)) as [Hj | Hj];
       [ rewrite String.substring_correct1 by lia
       | rewrite String.substring_correct2 by lia; done ] ]).
  - apply Hnosep.
  - apply Haftersep. lia.
Qed.

Lemma string_length_app (s t : string) :
  String.length (s +:+ t) = String.length s + String.length t.
Proof. induction s as [| c s IH]; [done |]. rewrite string_app_cons. cbn. by rewrite IH. Qed.

(** A numbered name is longer than the path, so it is never the path. *)
Lemma numbered_not_path (path : string) (i : nat) :
  numbered (splitext path).1 i (splitext path).2 ≠ path.
Proof.
  intros H. apply (f_equal String.length) in H.
  destruct (splitext_parts path) as [Happ _].
  rewrite <- Happ in H at 3. unfold numbered in H.
  rewrite !string_length_app in H. cbn in H. lia.
Qed.

Lemma candidate_inj_aux (path : string) (j k : nat) :
  candidate path j = candidate path k → j = k.
Proof.
  unfold candidate. destruct j as [| j], k as [| k]; cbn [tried]; intros H.
  - done.
  - symmetry in H. by apply numbered_not_path in H.
  - by apply numbered_not_path in H.
  - by apply numbered_inj in H.
Qed.

(** The names [assert_not_exists] tries are pairwise distinct: the loop never
    tests a name twice. *)
Theorem candidate_inj (path : string) (j k : nat) :
  candidate path j = candidate path k → j = k.
Proof. apply candidate_inj_aux. Qed.

Lemma candidate_inj_witness :
  candidate "file.txt" 2 = "file.2.txt" ∧ 2 = 2.
Proof.
  split; [vm_compute; reflexivity |].
  apply (candidate_inj "file.txt" 2 2). reflexivity.
Defined.

Lemma assert_not_exists_result (fs : gset string) (path q : string) :
  assert_not_exists fs path = Some q →
  ∃ k, q = candidate path k ∧ (q ∉ fs)
     ∧ ∀ i, i < k → candidate path i ∈ fs.
Proof.
  intros Hq.
  destruct (loop_first_free fs (splitext path).1 (splitext path).2 path)
    as (k & Hfree & Hbusy & Hrun).
  specialize (Hrun 0). rewrite Nat.add_0_r in Hrun.
  unfold assert_not_exists, assert_not_exists_fuel in Hq.
  destruct (splitext path) as [name ext] eqn:Hsplit. cbn [fst snd] in *.
  rewrite Hrun in Hq. injection Hq as <-.
  exists k. unfold candidate. rewrite Hsplit. by cbn [fst snd].
Qed.

Lemma assert_not_exists_unchanged_aux (fs : gset string) (path : string) :
  assert_not_exists fs path = Some path ↔ path ∉ fs.
Proof.
  split.
  - intros H. by apply assert_not_exists_result in H as (k & _ & Hfree & _).
  - intros Hfree. unfold assert_not_exists, assert_not_exists_fuel.
    destruct (splitext path) as [name ext]. cbn [assert_not_exists_loop].
    by rewrite bool_decide_eq_false_2.
Qed.

(** A path is returned unchanged exactly when it does not exist. *)
Theorem assert_not_exists_unchanged (fs : gset string) (path : string) :
  assert_not_exists fs path = Some path ↔ path ∉ fs.
Proof. apply assert_not_exists_unchanged_aux. Qed.

(** [assert_not_exists] is idempotent: the name it returns is returned
    unchanged when it is asked about again. *)
Theorem assert_not_exists_idempotent (fs : gset string) (path q : string) :
  assert_not_exists fs path = Some q →
  assert_not_exists fs q = Some q.
Proof.
  intros H. apply assert_not_exists_result in H as (k & _ & Hfree & _).
  by apply assert_not_exists_unchanged_aux.
Qed.

Lemma assert_not_exists_idempotent_witness :
  assert_not_exists {["file.txt"; "file.1.txt"]} "file.2.txt" = Some "file.2.txt".
Proof.
  apply (assert_not_exists_idempotent {["file.txt"; "file.1.txt"]} "file.txt" "file.2.txt").
  vm_compute. reflexivity.
Defined.


(** More existing files never give an earlier name: the number of the name
    returned grows with the set of paths that exist. *)
Theorem assert_not_exists_monotone (fs fs' : gset string) (path : string) (j k : nat) :
  fs ⊆ fs' →
  assert_not_exists fs path = Some (candidate path j) →
  assert_not_exists fs' path = Some (candidate path k) →
  j ≤ k.
Proof.
  intros Hsub Hj Hk.
  apply assert_not_exists_result in Hj as (j' & Hj' & _ & Hbusy).
  apply assert_not_exists_result in Hk as (k' & Hk' & Hfree & _).
  apply candidate_inj_aux in Hj' as <-. apply candidate_inj_aux in Hk' as <-.
  destruct (decide (j ≤ k)) as [| Hlt]; [done |].
  destruct Hfree. apply Hsub, Hbusy. lia.
Qed.

Lemma assert_not_exists_monotone_witness :
  assert_not_exists {["file.txt"]} "file.txt" = Some (candidate "file.txt" 1)
  ∧ assert_not_exists {["file.txt"; "file.1.txt"]} "file.txt"
    = Some (candidate "file.txt" 2)
  ∧ 1 ≤ 2.
Proof.
  split; [vm_compute; reflexivity | split; [vm_compute; reflexivity |]].
  apply (assert_not_exists_monotone {["file.txt"]} {["file.txt"; "file.1.txt"]}
           "file.txt" 1 2); [set_solver | vm_compute; reflexivity ..].
Defined.

(** ** Further results: the tables and the raw extension *)

(** The extension as [os.path.splitext] returns it, dot included, is a key of
    no table: without stripping the dot no path finds its handler. *)
Theorem loaders_raw_extension (cls : loader) (path : string) :
  cls ≠ cls_MultiFormatLoader →
  MultiFormatLoader._loaders cls (VStr (splitext path).2)
    = Raise (KeyError (splitext path).2).
Proof.
  intros Hcls.
  destruct (splitext_parts path) as [_ [-> | [[rest ->] _]]];
    destruct cls; try done; table_miss; done.
Qed.

Lemma loaders_raw_extension_witness :
  MultiFormatLoader._loaders cls_Positions (VStr (splitext "run/pos.coor").2)
    = Raise (KeyError ".coor").
Proof.
  apply (loaders_raw_extension cls_Positions "run/pos.coor"). discriminate.
Defined.

(** ** Further results: random_string *)

(** [random_string] returns nothing but the empty string, whatever the
    length given: any call that would draw a character raises instead. *)
Theorem random_string_only_empty (w : World) (length : value) (v : value) :
  random_string w length = Ok v → v = VStr "".
Proof.
  assert (Hz : ∀ z, (indices ← Ok (seqZ 0 z);
                     chars ← mapM (λ _ : Z,
                                     f ← load_global "choice";
                                     a ← load_global "ascii_letters";
                                     call_global w f [VStr a]) indices;
                     s ← str_join "" (VList chars);
                     Ok (VStr s)) = Ok v → v = VStr "").
  { intros z. cbn [mbind res_bind]. destruct (Z.ltb_spec 0 z) as [Hz | Hz].
    - by rewrite seqZ_pos_cons.
    - rewrite seqZ_nonpos by done. cbn. by intros [= <-]. }
  unfold random_string, range.
  destruct length as [| b | z | | | | | | |]; try done; try apply Hz;
    destruct (py_index w _) as [z |]; try done; apply Hz.
Qed.

Lemma random_string_only_empty_witness :
  ∃ v, random_string sample_world (VInt (-3)) = Ok v ∧ v = VStr "".
Proof.
  eexists. split; [reflexivity |].
  apply (random_string_only_empty sample_world (VInt (-3))). reflexivity.
Defined.

(** A length that is [None], a float, a str, a list or a tuple is refused
    with TypeError by [range], before any name is evaluated. *)
Theorem random_string_not_int (w : World) (length : value) :
  plain_non_integer length = true →
  ∃ msg, random_string w length = Raise (TypeError msg).
Proof.
  intros Hplain. unfold random_string, range.
  destruct length; try done; by eexists.
Qed.

Lemma random_string_not_int_witness :
  ∃ msg, random_string sample_world (VStr "5") = Raise (TypeError msg).
Proof.
  apply (random_string_not_int sample_world (VStr "5")). reflexivity.
Defined.

(** ** Further results: YamlLoader.construct_include *)

Lemma concat_empty_cons (x : string) (xs : list string) :
  String.concat "" (x :: xs) = x +:+ String.concat "" xs.
Proof. destruct xs; cbn [String.concat]; [by rewrite string_app_nil_r | done]. Qed.

Lemma string_app_assoc (s t u : string) : (s +:+ t) +:+ u = s +:+ (t +:+ u).
Proof. induction s as [| c s IH]; [done |]. rewrite !string_app_cons. by f_equal. Qed.

Lemma concat_readlines_go (cur text : string) :
  String.concat "" (readlines_go cur text) = cur +:+ text.
Proof.
  revert cur. induction text as [| c text IH]; intros cur.
  - cbn [readlines_go]. unfold flush_word. rewrite string_app_nil_r.
    by destruct (String.eqb_spec cur "") as [-> |].
  - cbn [readlines_go]. destruct (Ascii.eqb c "010").
    + rewrite concat_empty_cons, IH. by rewrite string_app_assoc.
    + rewrite IH. by rewrite string_app_assoc.
Qed.

(** Reading the lines of a file and joining them gives its content back,
    with the line ends translated. *)
Lemma concat_readlines_of (content : string) :
  String.concat "" (readlines_of content) = universal_newlines content.
Proof. apply concat_readlines_go. Qed.

Lemma universal_newlines_no_CR (content : string) :
  has_char "013" content = false → universal_newlines content = content.
Proof.
  induction content as [| c rest IH]; [done |]. cbn [has_char universal_newlines].
  destruct (Ascii.eqb c "013"); [done |]. cbn [orb]. intros H. by rewrite IH.
Qed.

(** An included file whose extension is neither [yaml] nor [yml] comes back
    as its content with every CR LF and every other CR turned into LF, the
    translation of text mode, and otherwise character for character: a
    content without CR comes back unchanged.  The test of the extension is
    case-sensitive, so [YAML] counts as text too. *)
Theorem construct_include_text (y : YamlWorld) (root : string) (node : value)
    (scalar content : string) :
  construct_scalar y node = Ok scalar →
  str_lstrip "." (splitext (abspath_join y root scalar)).2 ∉ ["yaml"; "yml"] →
  open_text y (abspath_join y root scalar) = Ok content →
  construct_include y root node = Ok (VStr (universal_newlines content))
  ∧ (if has_char "013" content then True else universal_newlines content = content).
Proof.
  intros Hscalar Hext Hopen. split.
  - unfold construct_include.
    rewrite Hscalar. cbn [mbind res_bind]. rewrite Hopen. cbn [mbind res_bind].
    rewrite bool_decide_eq_false_2 by done. by rewrite concat_readlines_of.
  - destruct (has_char "013" content) eqn:Hcr; [done |].
    by apply universal_newlines_no_CR.
Qed.

Lemma construct_include_text_witness :
  construct_include sample_yaml "/conf" (VStr "notes.txt")
    = Ok (VStr ("first" +:+ String "010" "second")).
Proof.
  apply (construct_include_text sample_yaml "/conf" (VStr "notes.txt") "notes.txt"
           ("first" +:+ String "013" (String "010" "second")));
    [reflexivity | | reflexivity].
  change (str_lstrip "." (splitext (abspath_join sample_yaml "/conf" "notes.txt")).2)
    with "txt".
  rewrite !not_elem_of_cons. repeat split; try discriminate.
  apply not_elem_of_nil.
Defined.

(** ** Further results: the errors of from_xsc *)

Lemma from_xsc_parsed (w : World) (path header values : string)
    (lines : list string) (numbers : list float64) :
  readlines w path = Ok lines →
  lines !! 1 = Some header →
  lines !! 2 = Some values →
  check_field_names [] (drop 1 (str_split header)) = Ok () →
  mapM (float_ w) (str_split values) = Ok numbers →
  BoxVectors.parse w path
    = namedtuple_new "NamedXsc" (drop 1 (str_split header)) (VFloat <$> numbers).
Proof.
  intros Hread Hheader Hvalues Hnames Hnumbers.
  unfold BoxVectors.parse, list_getitem, namedtuple.
  rewrite Hread. cbn [mbind res_bind]. rewrite Hheader. cbn [mbind res_bind].
  rewrite Hnames. cbn [mbind res_bind]. rewrite Hvalues. cbn [mbind res_bind].
  by rewrite Hnumbers.
Qed.

(** The first token of the header line is not a field: a file with as many
    numbers as header tokens, or any other number than one per field, is
    refused with TypeError. *)
Theorem from_xsc_wrong_count (w : World) (path header values : string)
    (lines : list string) (numbers : list float64) :
  readlines w path = Ok lines →
  lines !! 1 = Some header →
  lines !! 2 = Some values →
  check_field_names [] (drop 1 (str_split header)) = Ok () →
  mapM (float_ w) (str_split values) = Ok numbers →
  length (str_split values) ≠ length (drop 1 (str_split header)) →
  ∃ msg, BoxVectors.from_xsc w path = Raise (TypeError msg).
Proof.
  intros Hread Hheader Hvalues Hnames Hnumbers Hlen.
  unfold BoxVectors.from_xsc.
  rewrite (from_xsc_parsed w path header values lines numbers) by done.
  unfold namedtuple_new. rewrite length_fmap, (mapM_res_length _ _ _ Hnumbers).
  apply Nat.eqb_neq in Hlen. rewrite Hlen. by eexists.
Qed.

Lemma from_xsc_wrong_count_witness :
  ∃ msg, BoxVectors.from_xsc unlabelled_world "plain.xsc" = Raise (TypeError msg).
Proof.
  apply (from_xsc_wrong_count unlabelled_world "plain.xsc"
           "step a_x b_y c_z" "0 10.0 20.0 30.0"
           ["# comment"; "step a_x b_y c_z"; "0 10.0 20.0 30.0"]
           [f64_0; f64_10; f64_20; f64_30]); try reflexivity.
  vm_compute. lia.
Defined.

Lemma assoc_zip_absent (names : list string) (vals : list value) (n : string) :
  n ∉ names → assoc n (zip names vals) = None.
Proof.
  revert vals. induction names as [| name names IH]; intros vals Hn; [done |].
  destruct vals as [| v vals]; [done |].
  apply not_elem_of_cons in Hn as [Hne Hn].
  cbn [zip zip_with assoc].
  assert (Hneq : name ≠ n) by congruence.
  apply String.eqb_neq in Hneq. rewrite Hneq. by apply IH.
Qed.

(** A file that parses but has none of its fields named [a_x], [b_y] or
    [c_z], whichever is missing, gives AttributeError naming a missing
    field. *)
Theorem from_xsc_missing_field (w : World) (path header values : string)
    (lines : list string) (numbers : list float64) (missing : string) :
  readlines w path = Ok lines →
  lines !! 1 = Some header →
  lines !! 2 = Some values →
  check_field_names [] (drop 1 (str_split header)) = Ok () →
  mapM (float_ w) (str_split values) = Ok numbers →
  length numbers = length (drop 1 (str_split header)) →
  missing ∈ ["a_x"; "b_y"; "c_z"] →
  missing ∉ drop 1 (str_split header) →
  ∃ name, name ∈ ["a_x"; "b_y"; "c_z"]
        ∧ (name ∉ drop 1 (str_split header))
        ∧ BoxVectors.from_xsc w path = Raise (AttributeError name).
Proof.
  intros Hread Hheader Hvalues Hnames Hnumbers Hlen Hin Hmissing.
  unfold BoxVectors.from_xsc.
  rewrite (from_xsc_parsed w path header values lines numbers) by done.
  unfold namedtuple_new. rewrite length_fmap, Hlen, Nat.eqb_refl.
  cbn [mbind res_bind getattr].
  set (names := drop 1 (str_split header)) in *.
  set (attrs := zip names (VFloat <$> numbers)).
  assert (Hfield : ∀ n, ((n ∉ names) ∧ assoc n attrs = None)
                        ∨ (n ∈ names ∧ ∃ v, assoc n attrs = Some v)).
  { intros n. destruct (decide (n ∈ names)) as [Hn | Hn].
    - right. split; [done |]. apply list_elem_of_lookup_1 in Hn as [i Hi].
      destruct (lookup_lt_is_Some_2 (VFloat <$> numbers) i) as [v Hv].
      { rewrite length_fmap, Hlen. by eapply lookup_lt_Some. }
      exists v. by eapply (assoc_zip_lookup []).
    - left. split; [done |]. by apply assoc_zip_absent. }
  destruct (Hfield "a_x") as [[Ha ->] | [Ha [va ->]]].
  { exists "a_x". split; [repeat constructor | done]. }
  cbn [mbind res_bind].
  destruct (Hfield "b_y") as [[Hb ->] | [Hb [vb ->]]].
  { exists "b_y". split; [repeat constructor | done]. }
  cbn [mbind res_bind].
  destruct (Hfield "c_z") as [[Hc ->] | [Hc [vc ->]]].
  { exists "c_z". split; [repeat constructor | done]. }
  rewrite !elem_of_cons, elem_of_nil in Hin.
  destruct Hin as [-> | [-> | [-> | []]]]; done.
Qed.

Lemma from_xsc_missing_field_witness :
  ∃ name, name ∈ ["a_x"; "b_y"; "c_z"]
        ∧ (name ∉ drop 1 (str_split "#$LABELS step a_x b_y"))
        ∧ BoxVectors.from_xsc no_c_z_world "flat.xsc" = Raise (AttributeError name).
Proof.
  apply (from_xsc_missing_field no_c_z_world "flat.xsc"
           "#$LABELS step a_x b_y" "0 10.0 20.0"
           ["# comment"; "#$LABELS step a_x b_y"; "0 10.0 20.0"]
           [f64_0; f64_10; f64_20] "c_z"); try reflexivity.
  - repeat constructor.
  - change (drop 1 (str_split "#$LABELS step a_x b_y")) with ["step"; "a_x"; "b_y"].
    rewrite !not_elem_of_cons. repeat split; try discriminate. apply not_elem_of_nil.
Defined.

(** ** splitext against its description *)

Lemma string_app_nil_l (t : string) : "" +:+ t = t.
Proof. reflexivity. Qed.

Lemma get_app (s t : string) (j : nat) :
  String.get j (s +:+ t)
    = if j <? String.length s then String.get j s
      else String.get (j - String.length s) t.
Proof.
  revert j. induction s as [| a s IH]; intros j.
  - rewrite string_app_nil_l. cbn [String.length]. by rewrite Nat.sub_0_r.
  - rewrite string_app_cons. destruct j as [| j]; [done |].
    cbn [String.get String.length]. rewrite IH.
    change (S j <? S (String.length s)) with (j <? String.length s).
    by replace (S j - S (String.length s)) with (j - String.length s) by lia.
Qed.

Lemma get_lt (s : string) (j : nat) :
  j < String.length s → ∃ a, String.get j s = Some a.
Proof.
  revert j. induction s as [| a s IH]; intros j Hj; cbn in Hj; [lia |].
  destruct j as [| j]; [by eexists |]. apply IH. lia.
Qed.

Lemma has_char_get (c : ascii) (s : string) :
  has_char c s = false → ∀ j, String.get j s ≠ Some c.
Proof.
  induction s as [| a s IH]; intros H j; [done |].
  cbn [has_char] in H. apply orb_false_iff in H as [Ha Hs].
  destruct j as [| j]; [| by apply IH].
  cbn. intros [= ->]. by rewrite Ascii.eqb_refl in Ha.
Qed.

Lemma has_char_app (c : ascii) (s t : string) :
  has_char c (s +:+ t) = has_char c s || has_char c t.
Proof.
  induction s as [| a s IH]; [done |].
  rewrite string_app_cons. cbn [has_char]. by rewrite IH, orb_assoc.
Qed.

Lemma all_dots_get (s : string) :
  all_dots s = true → ∀ j a, String.get j s = Some a → a = "."%char.
Proof.
  induction s as [| b s IH]; intros H j a Hget; [done |].
  cbn [all_dots] in H. apply andb_true_iff in H as [Hb Hs].
  destruct j as [| j]; [| by eapply IH].
  cbn in Hget. injection Hget as <-. by apply Ascii.eqb_eq in Hb.
Qed.

Lemma all_dots_no_slash (s : string) : all_dots s = true → has_char "/" s = false.
Proof.
  induction s as [| b s IH]; [done |]. cbn [all_dots has_char].
  intros H. apply andb_true_iff in H as [Hb Hs]. apply Ascii.eqb_eq in Hb as ->.
  by rewrite IH.
Qed.

(** Dots commute with a dot. *)
Lemma all_dots_shift (d t : string) :
  all_dots d = true → String "." d +:+ t = d +:+ String "." t.
Proof.
  induction d as [| b d IH]; [done |]. cbn [all_dots]. intros H.
  apply andb_true_iff in H as [Hb Hd]. apply Ascii.eqb_eq in Hb as ->.
  rewrite !string_app_cons in *. by rewrite IH.
Qed.

Lemma rfind_unique (c : ascii) (s : string) (i : nat) :
  String.get i s = Some c →
  (∀ j, i < j → String.get j s ≠ Some c) →
  rfind c s = Z.of_nat i.
Proof.
  intros Hget Hafter. unfold rfind.
  destruct (rfind_from_spec c s 0 (-1)) as [[_ Hnone] | (Hrange & Hr & Hlast)]; [lia | |].
  - by destruct (Hnone i).
  - rewrite Z.sub_0_r in *.
    destruct (Z.lt_trichotomy (rfind_from c s 0 (-1)) (Z.of_nat i)) as [Hlt | [Heq | Hgt]].
    + destruct (Hlast i); [lia | done].
    + done.
    + destruct (Hafter (Z.to_nat (rfind_from c s 0 (-1)))); [lia | done].
Qed.

Lemma rfind_none (c : ascii) (s : string) :
  has_char c s = false → rfind c s = (-1)%Z.
Proof.
  intros H. unfold rfind.
  destruct (rfind_from_spec c s 0 (-1)) as [[Hr _] | (Hrange & Hr & _)]; [lia | done |].
  by destruct (has_char_get c s H (Z.to_nat (rfind_from c s 0 (-1) - 0))).
Qed.

(** The last slash of a path is the one that ends its directory part. *)
Lemma rfind_sep (dir tail : string) :
  is_dir dir → has_char "/" tail = false →
  rfind "/" (dir +:+ tail) = (Z.of_nat (String.length dir) - 1)%Z.
Proof.
  intros [-> | [d ->]] Htail.
  - rewrite string_app_nil_l. by apply rfind_none.
  - rewrite string_app_assoc, string_length_app. cbn [String.length].
    rewrite (rfind_unique "/" _ (String.length d)); [lia | |].
    + rewrite get_app, Nat.ltb_irrefl, Nat.sub_diag. done.
    + intros j Hj. rewrite get_app.
      destruct (Nat.ltb_spec j (String.length d)) as [| _]; [lia |].
      destruct (j - String.length d) as [| k] eqn:Hk; [lia |].
      rewrite string_app_cons. cbn [String.get]. by apply has_char_get.
Qed.

Lemma splitext_scan_true (p : string) (start n k : nat) :
  start ≤ k → k < start + n → String.get k p ≠ Some "."%char →
  splitext_scan p start n = true.
Proof.
  revert start. induction n as [| n IH]; intros start Hle Hlt Hk; [lia |].
  cbn [splitext_scan].
  destruct (decide (start = k)) as [-> | Hne].
  - destruct (String.get k p) as [a |]; [| done].
    destruct (Ascii.eqb_spec a ".") as [-> | Ha]; [done |].
    destruct a as [[] [] [] [] [] [] [] []]; try done.
  - destruct (String.get start p) as [a |]; [| done].
    assert (Hrec : splitext_scan p (S start) n = true) by (apply IH; [lia | lia | done]).
    rewrite Hrec. by destruct a as [[] [] [] [] [] [] [] []].
Qed.

Lemma splitext_scan_false (p : string) (start n : nat) :
  (∀ k, start ≤ k → k < start + n → String.get k p = Some "."%char) →
  splitext_scan p start n = false.
Proof.
  revert start. induction n as [| n IH]; intros start Hdots; [done |].
  cbn [splitext_scan]. rewrite (Hdots start) by lia. apply IH.
  intros k ? ?. apply Hdots; lia.
Qed.

Lemma substring_app_l (s t : string) :
  String.substring 0 (String.length s) (s +:+ t) = s.
Proof.
  induction s as [| a s IH].
  - cbn [String.length]. by destruct t.
  - rewrite string_app_cons. cbn [String.length String.substring]. by rewrite IH.
Qed.

Lemma substring_app_r (s t : string) :
  String.substring (String.length s) (String.length t) (s +:+ t) = t.
Proof.
  induction s as [| a s IH].
  - rewrite string_app_nil_l. apply substring_all.
  - rewrite string_app_cons. cbn [String.length String.substring]. exact IH.
Qed.

(** [splitext] returns the split of the description. *)
Lemma splitext_splits (path name ext : string) :
  splits path name ext → splitext path = (name, ext).
Proof.
  destruct 1 as [dir dots c r e Hdir Hdots Hc Hr He_dot He_sep
                | dir dots rest Hdir Hdots Hrest_dot Hrest_sep].
  - set (name := dir +:+ dots +:+ String c r).
    assert (Hpath : dir +:+ dots +:+ String c r +:+ String "." e = name +:+ String "." e).
    { unfold name. by rewrite !string_app_assoc. }
    assert (Hsep : rfind "/" (dir +:+ dots +:+ String c r +:+ String "." e)
                   = (Z.of_nat (String.length dir) - 1)%Z).
    { apply rfind_sep; [done |]. rewrite !has_char_app.
      rewrite (all_dots_no_slash dots Hdots), Hr. cbn [has_char orb].
      by rewrite He_sep. }
    assert (Hdot : rfind "." (name +:+ String "." e) = Z.of_nat (String.length name)).
    { apply rfind_unique.
      - by rewrite get_app, Nat.ltb_irrefl, Nat.sub_diag.
      - intros j Hj. rewrite get_app.
        destruct (Nat.ltb_spec j (String.length name)) as [| _]; [lia |].
        destruct (j - String.length name) as [| k] eqn:Hk; [lia |].
        cbn [String.get]. by apply has_char_get. }
    assert (Hlen : String.length name
                   = String.length dir + (String.length dots + S (String.length r))).
    { unfold name. by rewrite !string_length_app. }
    unfold splitext. rewrite Hsep. rewrite Hpath, Hdot.
    replace (Z.of_nat (String.length dir) - 1 <? Z.of_nat (String.length name))%Z
      with true by (symmetry; apply Z.ltb_lt; lia).
    rewrite (splitext_scan_true _ _ _ (String.length dir + String.length dots)).
    + cbn [andb]. rewrite Nat2Z.id, string_length_app.
      replace (String.length name + String.length (String "." e) - String.length name)
        with (String.length (String "." e)) by lia.
      by rewrite substring_app_l, substring_app_r.
    + lia.
    + lia.
    + unfold name. rewrite !string_app_assoc. rewrite get_app.
      destruct (Nat.ltb_spec (String.length dir + String.length dots) (String.length dir))
        as [| _]; [lia |].
      replace (String.length dir + String.length dots - String.length dir)
        with (String.length dots) by lia.
      rewrite get_app, Nat.ltb_irrefl, Nat.sub_diag.
      rewrite string_app_cons. cbn [String.get]. congruence.
  - set (path := dir +:+ dots +:+ rest).
    assert (Hsep : rfind "/" path = (Z.of_nat (String.length dir) - 1)%Z).
    { apply rfind_sep; [done |]. rewrite has_char_app.
      by rewrite (all_dots_no_slash dots Hdots), Hrest_sep. }
    unfold splitext. rewrite Hsep.
    destruct (Z.ltb_spec (Z.of_nat (String.length dir) - 1) (rfind "." path))
      as [Hlt | Hge]; [| done].
    rewrite splitext_scan_false; [done |].
    intros k Hk1 Hk2.
    (* the last dot lies among the leading dots, and so does what precedes it *)
    unfold rfind in *.
    destruct (rfind_from_spec "." path 0 (-1)) as [[Hr _] | (Hrange & Hget & _)];
      [lia | lia |].
    rewrite Z.sub_0_r in Hget.
    set (d := Z.to_nat (rfind_from "." path 0 (-1))) in *.
    assert (Hd : d < String.length dir + String.length dots).
    { destruct (Nat.ltb_spec d (String.length dir + String.length dots)) as [| Hbig];
        [done |]. exfalso. revert Hget. unfold path.
      rewrite get_app. destruct (Nat.ltb_spec d (String.length dir)); [lia |].
      rewrite get_app. destruct (Nat.ltb_spec (d - String.length dir) (String.length dots));
        [lia |]. by apply has_char_get. }
    unfold path. rewrite get_app.
    destruct (Nat.ltb_spec k (String.length dir)); [lia |].
    rewrite get_app.
    destruct (Nat.ltb_spec (k - String.length dir) (String.length dots)); [| lia].
    destruct (get_lt dots (k - String.length dir)) as [a Ha]; [done |].
    rewrite Ha. f_equal. by eapply all_dots_get.
Qed.

(** Every path has a split. *)
Lemma splits_total (path : string) : ∃ name ext, splits path name ext.
Proof.
  induction path as [| a path (name & ext & IH)].
  - exists "", "". apply (splits_plain "" "" ""); try done. by left.
  - destruct IH as [dir dots c r e Hdir Hdots Hc Hr He_dot He_sep
                   | dir dots rest Hdir Hdots Hrest_dot Hrest_sep].
    + destruct Hdir as [-> | [d ->]].
      * rewrite !string_app_nil_l.
        destruct (Ascii.eqb_spec a "/") as [-> | Hslash];
          [| destruct (Ascii.eqb_spec a ".") as [-> | Hdot]].
        -- eexists _, _. apply (splits_ext "/" dots c r e); try done.
           right. by exists "".
        -- eexists _, _. apply (splits_ext "" (String "." dots) c r e); try done.
           by left.
        -- eexists _, _.
           replace (String a (dots +:+ String c r +:+ String "." e))
             with ("" +:+ "" +:+ String a (dots +:+ String c r) +:+ String "." e)
             by (rewrite !string_app_nil_l, string_app_cons; f_equal;
                 by rewrite string_app_assoc).
           apply (splits_ext "" "" a (dots +:+ String c r) e); try done; [by left |].
           cbn [has_char]. apply Ascii.eqb_neq in Hslash. rewrite Hslash. cbn [orb].
           by rewrite has_char_app, (all_dots_no_slash dots Hdots), Hr.
      * eexists _, _. apply (splits_ext (String a d +:+ "/") dots c r e); try done.
        right. by exists (String a d).
    + destruct Hdir as [-> | [d ->]].
      * rewrite !string_app_nil_l.
        destruct (Ascii.eqb_spec a "/") as [-> | Hslash];
          [| destruct (Ascii.eqb_spec a ".") as [-> | Hdot]].
        -- eexists _, _. apply (splits_plain "/" dots rest); try done.
           right. by exists "".
        -- eexists _, _. apply (splits_plain "" (String "." dots) rest); try done.
           by left.
        -- destruct dots as [| b dots'].
           ++ rewrite string_app_nil_l. eexists _, _.
              apply (splits_plain "" "" (String a rest)); try done; [by left | |];
                cbn [has_char].
              ** apply Ascii.eqb_neq in Hdot. by rewrite Hdot.
              ** apply Ascii.eqb_neq in Hslash. by rewrite Hslash.
           ++ cbn [all_dots] in Hdots. apply andb_true_iff in Hdots as [Hb Hdots'].
              apply Ascii.eqb_eq in Hb as ->.
              rewrite (all_dots_shift dots' rest Hdots').
              eexists _, _.
              replace (String a (dots' +:+ String "." rest))
                with ("" +:+ "" +:+ String a dots' +:+ String "." rest)
                by (by rewrite !string_app_nil_l, string_app_cons).
              apply (splits_ext "" "" a dots' rest); try done; [by left |].
              cbn [has_char]. apply Ascii.eqb_neq in Hslash. rewrite Hslash. cbn [orb].
              by apply all_dots_no_slash.
      * eexists _, _. apply (splits_plain (String a d +:+ "/") dots rest); try done.
        right. by exists (String a d).
Qed.

(** ** assert_not_exists against the documented sequence of names *)

Lemma tried_sequence_name (path name ext : string) (k : nat) :
  tried name ext path k = sequence_name path name ext k.
Proof. by destruct k. Qed.

(** The split of a path is unique: it is the one [splitext] computes. *)
Lemma splits_unique (path name ext name' ext' : string) :
  splits path name ext → splits path name' ext' → name = name' ∧ ext = ext'.
Proof.
  intros H H'. apply splitext_splits in H, H'. rewrite H in H'.
  by injection H' as -> ->.
Qed.

Lemma splits_file_txt : splits "file.txt" "file" ".txt".
Proof. apply (splits_ext "" "" "f" "ile" "txt"); try done. by left. Qed.

(** C8: for every path, with name and ext the split of the path (the
    extension is the part of the last component from its last dot on,
    leading dots apart), [assert_not_exists] returns the first name of the
    sequence path, name.1.ext, name.2.ext, ... that does not exist: the name
    returned is free, every name before it in the sequence exists, and more
    turns of the loop than the [size fs + 2] allowed give the same name.  In
    particular an existing file.txt gives file.1.txt, and file.2.txt when
    that exists too. *)
Theorem assert_not_exists_first_free (fs : gset string) (path : string) :
  (∃ name ext k,
     splits path name ext
     ∧ assert_not_exists fs path = Some (sequence_name path name ext k)
     ∧ (sequence_name path name ext k ∉ fs)
     ∧ Forall (λ j, sequence_name path name ext j ∈ fs) (seq 0 k)
     ∧ ∀ n, assert_not_exists_fuel (S (S (size fs)) + n) fs path
            = Some (sequence_name path name ext k))
  ∧ splits "file.txt" "file" ".txt"
  ∧ assert_not_exists {["file.txt"]} "file.txt" = Some "file.1.txt"
  ∧ assert_not_exists {["file.txt"; "file.1.txt"]} "file.txt" = Some "file.2.txt".
Proof.
  split; [| split; [apply splits_file_txt | split; vm_compute; reflexivity]].
  destruct (splits_total path) as (name & ext & Hsplits).
  pose proof (splitext_splits path name ext Hsplits) as Hsplitext.
  destruct (loop_first_free fs name ext path) as (k & Hfree & Hbusy & Hrun).
  exists name, ext, k. rewrite <- !tried_sequence_name.
  assert (Hfuel : ∀ n, assert_not_exists_fuel (S (S (size fs)) + n) fs path
                       = Some (tried name ext path k)).
  { intros n. unfold assert_not_exists_fuel. rewrite Hsplitext. apply Hrun. }
  split; [done |]. split; [| split; [done | split; [| done]]].
  - unfold assert_not_exists. specialize (Hfuel 0).
    by rewrite Nat.add_0_r in Hfuel.
  - apply Forall_forall. intros j Hj. apply elem_of_seq in Hj.
    rewrite <- tried_sequence_name. apply Hbusy. lia.
Qed.

(** The counter goes right before the extension, inside the last component
    of the path: with name and ext the split of the path, a name returned
    that differs from the path is name, a dot, a number of at least 1 and
    ext; ext holds no slash, and the names of the sequence with a smaller
    number all exist. *)
Theorem assert_not_exists_keeps_extension (fs : gset string) (path q : string) :
  assert_not_exists fs path = Some q →
  q ≠ path →
  ∃ name ext i,
    splits path name ext
    ∧ q = name +:+ "." +:+ pretty i +:+ ext
    ∧ 1 ≤ i
    ∧ has_char "/" ext = false
    ∧ (∀ k, k < i → sequence_name path name ext k ∈ fs).
Proof.
  intros H Hne. apply assert_not_exists_result in H as (k & -> & _ & Hbusy).
  destruct (splits_total path) as (name & ext & Hsplits).
  pose proof (splitext_splits path name ext Hsplits) as Hsplitext.
  unfold candidate in *. rewrite Hsplitext in *. cbn [fst snd] in *.
  destruct k as [| k]; [done |].
  exists name, ext, (S k).
  split; [done | split; [done | split; [lia | split]]].
  - by destruct Hsplits.
  - intros j Hj. rewrite <- tried_sequence_name. by apply Hbusy.
Qed.

Lemma assert_not_exists_keeps_extension_witness :
  ∃ name ext i,
    splits "run/out.dcd" name ext
    ∧ "run/out.1.dcd" = name +:+ "." +:+ pretty i +:+ ext
    ∧ 1 ≤ i
    ∧ has_char "/" ext = false
    ∧ (∀ k, k < i →
            sequence_name "run/out.dcd" name ext k ∈ ({["run/out.dcd"]} : gset string)).
Proof.
  apply (assert_not_exists_keeps_extension {["run/out.dcd"]} "run/out.dcd" "run/out.1.dcd");
    [vm_compute; reflexivity | discriminate].
Defined.
